(** * release-grq.py: the GovReady-Q release publisher assistant

    A shallow embedding of [download/release-grq.py] and the properties of
    its pipeline: fetch the latest release's metadata, download the two
    archives, measure and checksum each, print one table row per archive,
    and translate every failure into an exit status.

    The script is effectful, so it is embedded in a state-and-exception
    monad over an explicit [World]: what the network, the file system, the
    checksum command and the operator (control-C) do is an input, and what
    the script does (requests, files written, text printed, exit status) is
    the result. *)

From Stdlib Require Import List ZArith NArith Bool Arith Lia.
From Stdlib Require Import Strings.String Strings.Ascii Strings.Byte DecimalString.
Import ListNotations.

Set Implicit Arguments.
Open Scope string_scope.
Open Scope list_scope.
Set Warnings "-register-all".

(** ** Python strings

    A Python [str] is a sequence of Unicode code points; [bytes] is a
    sequence of octets. *)

Module PyStr.

Definition char := N.
Definition str := list char.
Definition bytes := list byte.

(** A literal of the source (all of them are ASCII). *)
Definition lit (s : string) : str :=
  map N_of_ascii (list_ascii_of_string s).

Fixpoint str_eqb (a b : str) : bool :=
  match a, b with
  | [], [] => true
  | x :: a', y :: b' => N.eqb x y && str_eqb a' b'
  | _, _ => false
  end.

(** [s.startswith(p)] *)
Fixpoint starts_with (p s : str) : bool :=
  match p, s with
  | [], _ => true
  | x :: p', y :: s' => N.eqb x y && starts_with p' s'
  | _ :: _, [] => false
  end.

(** [needle in hay] *)
Fixpoint contains (needle hay : str) : bool :=
  starts_with needle hay ||
  match hay with
  | [] => false
  | _ :: hay' => contains needle hay'
  end.

(** [s.split(sep)] for a non-empty [sep] (Python raises ValueError for an
    empty one; the script only passes literals).  The scan goes left to
    right over non-overlapping occurrences; [cur] is the piece being read,
    reversed, and [skip] counts the characters of an occurrence still to
    be consumed. *)
Fixpoint split_go (sep s cur : str) (skip : nat) : list str :=
  match s with
  | [] => [rev cur]
  | c :: s' =>
      match skip with
      | S k => split_go sep s' cur k
      | O =>
          if starts_with sep s
          then rev cur :: split_go sep s' [] (List.length sep - 1)
          else split_go sep s' (c :: cur) 0
      end
  end.

Definition split (sep s : str) : list str := split_go sep s [] 0.

(** [s.replace(old, new)] for a non-empty [old]. *)
Fixpoint replace_go (old new s : str) (skip : nat) : str :=
  match s with
  | [] => []
  | c :: s' =>
      match skip with
      | S k => replace_go old new s' k
      | O =>
          if starts_with old s
          then new ++ replace_go old new s' (List.length old - 1)
          else c :: replace_go old new s' 0
      end
  end.

Definition replace (old new s : str) : str := replace_go old new s 0.

(** [l[-1]] and [l[0]]: IndexError on an empty list is [None]. *)
Fixpoint index_last (A : Type) (l : list A) : option A :=
  match l with
  | [] => None
  | [x] => Some x
  | _ :: l' => index_last l'
  end.

Definition index_first (A : Type) (l : list A) : option A :=
  match l with
  | [] => None
  | x :: _ => Some x
  end.

(** [str(n)] for an [int]. *)
Definition str_of_int (z : Z) : str :=
  lit (NilZero.string_of_int (Z.to_int z)).

(** *** [bytes.decode('utf-8')], strict

    The well-formed byte sequences of the Unicode standard (no overlong
    forms, no surrogates, nothing above U+10FFFF); [None] is
    UnicodeDecodeError. *)

Definition in_range (lo hi n : N) : bool := (N.leb lo n && N.leb n hi)%bool.
Definition is_cont (n : N) : bool := in_range 128 191 n.
Definition cont_bits (n : N) : N := (n - 128)%N.

Fixpoint utf8_decode (bs : bytes) : option str :=
  match bs with
  | [] => Some []
  | b0 :: r0 =>
      let n0 := Byte.to_N b0 in
      if N.ltb n0 128 then option_map (cons n0) (utf8_decode r0)
      else match r0 with
      | [] => None
      | b1 :: r1 =>
          let n1 := Byte.to_N b1 in
          if in_range 194 223 n0 then
            if is_cont n1
            then option_map (cons ((n0 - 192) * 64 + cont_bits n1)%N)
                            (utf8_decode r1)
            else None
          else match r1 with
          | [] => None
          | b2 :: r2 =>
              let n2 := Byte.to_N b2 in
              if in_range 224 239 n0 then
                if (if N.eqb n0 224 then in_range 160 191 n1
                    else if N.eqb n0 237 then in_range 128 159 n1
                    else is_cont n1) && is_cont n2
                then option_map
                       (cons ((n0 - 224) * 4096 + cont_bits n1 * 64
                              + cont_bits n2)%N)
                       (utf8_decode r2)
                else None
              else match r2 with
              | [] => None
              | b3 :: r3 =>
                  let n3 := Byte.to_N b3 in
                  if in_range 240 244 n0 then
                    if (if N.eqb n0 240 then in_range 144 191 n1
                        else if N.eqb n0 244 then in_range 128 143 n1
                        else is_cont n1) && is_cont n2 && is_cont n3
                    then option_map
                           (cons ((n0 - 240) * 262144 + cont_bits n1 * 4096
                                  + cont_bits n2 * 64 + cont_bits n3)%N)
                           (utf8_decode r3)
                    else None
                  else None
              end
          end
      end
  end.

(** The bytes of an ASCII literal, for writing down concrete process
    output. *)
Definition blit (s : string) : bytes :=
  map byte_of_ascii (list_ascii_of_string s).

End PyStr.
Import PyStr.

(** ** Python values, exceptions and text

    Floating-point numbers are never inspected by the script (an elapsed
    time, a number in the metadata), so a float is an opaque bit pattern. *)

Inductive pyfloat := Float64 (bits : Z).

(** What [json()] can return. *)
Inductive pyval :=
| PNone
| PBool (b : bool)
| PInt (z : Z)
| PFloat (f : pyfloat)
| PStr (s : str)
| PList (l : list pyval)
| PDict (items : list (str * pyval)).

(** [subprocess.CompletedProcess]; [stdout] and [stderr] are [None] when
    the stream was not captured. *)
Record CompletedProcess := {
  cp_args : list str;
  returncode : Z;
  cp_stdout : option bytes;
  cp_stderr : option bytes
}.

(** The exception classes the handlers of [main] do not name, all of them
    subclasses of [Exception]. *)
Inductive builtin :=
| UnboundLocalError | KeyError | TypeError | AttributeError | IndexError
| UnicodeDecodeError | OverflowError | FileNotFoundError | OSError
| RequestException | JSONDecodeError.

(** Exceptions.  [SystemExit] derives from [BaseException], every other
    class from [Exception].  [Builtin cls about] records the class and what
    the error is about (a variable, a key, an attribute, the library's
    message), not the interpreter's wording. *)
Inductive exn :=
| ReturncodeNonZeroError (completed_process : CompletedProcess) (msg : str)
| TimeoutExpired (cmd : list str) (timeout : Z)
| HaltedError (msg : str)
| FatalError (msg : str)
| SystemExit (code : Z)
| Builtin (cls : builtin) (about : str).

Definition is_Exception (e : exn) : bool :=
  match e with
  | SystemExit _ => false
  | _ => true
  end.

(** Text written to a stream.  What the source spells out is a literal;
    the renderings that belong to the interpreter ([str()] of a list or a
    dict, a float through a format specification, the message of a
    built-in exception) stay symbolic. *)
Inductive piece :=
| Lit (s : str)
| Fmt (spec : str) (v : pyval)
| StrExn (e : exn).

Definition text := list piece.

(** [str(v)], as [print] and [{}] render a value. *)
Definition show (v : pyval) : text :=
  match v with
  | PStr s => [Lit s]
  | PInt z => [Lit (str_of_int z)]
  | PNone => [Lit (lit "None")]
  | PBool true => [Lit (lit "True")]
  | PBool false => [Lit (lit "False")]
  | _ => [Fmt [] v]
  end.

(** [str(err)] *)
Definition show_exn (e : exn) : text :=
  match e with
  | ReturncodeNonZeroError _ msg => [Lit msg]
  | HaltedError msg => [Lit msg]
  | FatalError msg => [Lit msg]
  | _ => [StrExn e]
  end.

Definition type_name (v : pyval) : str :=
  match v with
  | PNone => lit "NoneType"
  | PBool _ => lit "bool"
  | PInt _ => lit "int"
  | PFloat _ => lit "float"
  | PStr _ => lit "str"
  | PList _ => lit "list"
  | PDict _ => lit "dict"
  end.

(** [float(n)] for an [int]: rounding to the nearest double, ties to even;
    [None] is OverflowError.  The result is an integer, returned as such. *)
Definition float_of_int (z : Z) : option Z :=
  let a := Z.abs z in
  let e := (Z.log2 a + 1 - 53)%Z in
  let r :=
    if (e <=? 0)%Z then a
    else
      let q := Z.shiftr a e in
      let rem := Z.land a (Z.ones e) in
      let half := Z.shiftl 1 (e - 1) in
      let up := ((half <? rem) || ((rem =? half) && Z.odd q))%Z%bool in
      Z.shiftl (if up then q + 1 else q)%Z e in
  if (r <? 2 ^ 1024)%Z then Some (Z.sgn z * r)%Z else None.

(** ['{:.1f}'.format(n)] for an [int]: the float conversion, then the
    digits of the (integral) double and one decimal. *)
Definition format_1f (z : Z) : option str :=
  option_map (fun r => str_of_int r ++ lit ".0") (float_of_int z).

(** ** The world: everything outside the script *)

(** A [requests.Response], as far as the script looks at it; [resp_json]
    is what [json()] returns, [None] when it raises (the body is not
    JSON). *)
Record Response := {
  status_code : Z;
  content : bytes;
  resp_json : option pyval
}.

Inductive HttpOutcome :=
| NetFail (reason : str)            (* requests.get raises *)
| Responded (r : Response).

Inductive ProcOutcome :=
| NotFound (reason : str)           (* FileNotFoundError: no such program *)
| TimedOut                          (* subprocess.TimeoutExpired *)
| Exited (code : Z) (out err : bytes) (elapsed : pyfloat).

(** The command-line arguments, as [argparse] returns them. *)
Record Args := {
  non_interactive : bool;
  args_timeout : Z;
  user : bool;
  verbose : nat;
  docker : bool
}.

Definition FileSystem := list (str * bytes).

Record World := {
  w_get : str -> HttpOutcome;                (* requests.get(url) *)
  w_open_wb : str -> option str;             (* open(name, "wb") fails *)
  w_run : list str -> Z -> ProcOutcome;      (* the program run, its timeout *)
  w_files : FileSystem;                      (* the directory at start *)
  w_sigint : option nat                      (* when control-C arrives *)
}.

(** The same world with an operator who never interrupts. *)
Definition quiet (w : World) : World :=
  {| w_get := w_get w; w_open_wb := w_open_wb w; w_run := w_run w;
     w_files := w_files w; w_sigint := None |}.

Definition interrupted_at (n : nat) (w : World) : World :=
  {| w_get := w_get w; w_open_wb := w_open_wb w; w_run := w_run w;
     w_files := w_files w; w_sigint := Some n |}.

(** ** What the script does *)

Inductive event :=
| EGet (url : str)
| EOpenWrite (filename : str)
| EWrite (filename : str) (data : bytes)
| EGetsize (path : str)
| ERun (argv : list str) (timeout : Z) (capture : bool).

Record State := {
  clock : nat;                 (* interruption points passed *)
  fs : FileSystem;
  stdout : list text;          (* one entry per [print] *)
  stderr : list text;          (* one entry per [sys.stderr.write] *)
  trace : list event           (* oldest first *)
}.

Fixpoint fs_lookup (name : str) (f : FileSystem) : option bytes :=
  match f with
  | [] => None
  | (n, b) :: f' => if str_eqb n name then Some b else fs_lookup name f'
  end.

Definition initial (w : World) : State :=
  {| clock := 0; fs := w_files w; stdout := []; stderr := []; trace := [] |}.

(** ** The monad: state, exceptions, interruption

    A computation reads the world, changes the state, and either returns a
    value or raises an exception.  [tb_lineno] is the line of [main] the
    exception passed through, which the last handler of [main] prints. *)

Inductive Result (A : Type) :=
| Ok (a : A)
| Raise (e : exn) (tb_lineno : nat).
Arguments Ok {A} a.
Arguments Raise {A} e tb_lineno.

Definition M (A : Type) := World -> State -> Result A * State.

Definition ret (A : Type) (a : A) : M A := fun _ st => (Ok a, st).

Definition bind (A B : Type) (m : M A) (k : A -> M B) : M B :=
  fun w st =>
    match m w st with
    | (Ok a, st') => k a w st'
    | (Raise e l, st') => (Raise e l, st')
    end.

Notation "x <- m ;; k" := (bind m (fun x => k))
  (at level 61, m at next level, right associativity).
Notation "m ;; k" := (bind m (fun _ => k))
  (at level 61, right associativity).

Definition raise (A : Type) (e : exn) : M A := fun _ st => (Raise e 0, st).
Arguments raise {A} e.

Definition set_clock (n : nat) (st : State) : State :=
  {| clock := n; fs := fs st; stdout := stdout st; stderr := stderr st;
     trace := trace st |}.

(** Line 53: [signal.signal(SIGINT, lambda ...: sys.exit(0))].  A point at
    which the signal can be delivered; if it is, the handler raises
    [SystemExit(0)] there. *)
Definition tick : M unit :=
  fun w st =>
    let st' := set_clock (S (clock st)) st in
    match w_sigint w with
    | Some n => if Nat.eqb n (clock st)
                then (Raise (SystemExit 0) 0, st')
                else (Ok tt, st')
    | None => (Ok tt, st')
    end.

(** An exception leaving the code of line [n] of [main] is recorded there. *)
Definition at_line (A : Type) (n : nat) (m : M A) : M A :=
  fun w st =>
    match m w st with
    | (Raise e _, st') => (Raise e n, st')
    | r => r
    end.

(** One statement, at line [n] of the source. *)
Definition stmt (A : Type) (n : nat) (m : M A) : M A :=
  tick ;; at_line n m.

(** [try: body / except Exception ...: handler]: [SystemExit] is not an
    [Exception] and passes through. *)
Definition try_except (A : Type) (body : M A)
    (handler : exn -> nat -> M A) : M A :=
  fun w st =>
    match body w st with
    | (Ok a, st') => (Ok a, st')
    | (Raise e l, st') =>
        if is_Exception e then handler e l w st' else (Raise e l, st')
    end.

(** [for x in l: body], the loop header at line [n]. *)
Fixpoint for_each (A : Type) (n : nat) (l : list A) (body : A -> M unit)
    : M unit :=
  match l with
  | [] => stmt n (ret tt)
  | x :: l' => stmt n (ret tt) ;; body x ;; for_each n l' body
  end.

(** *** Primitive effects *)

Definition log (e : event) : M unit :=
  fun _ st =>
    (Ok tt, {| clock := clock st; fs := fs st; stdout := stdout st;
               stderr := stderr st; trace := trace st ++ [e] |}).

Definition print (t : text) : M unit :=
  fun _ st =>
    (Ok tt, {| clock := clock st; fs := fs st; stdout := stdout st ++ [t];
               stderr := stderr st; trace := trace st |}).

Definition stderr_write (t : text) : M unit :=
  fun _ st =>
    (Ok tt, {| clock := clock st; fs := fs st; stdout := stdout st;
               stderr := stderr st ++ [t]; trace := trace st |}).

Definition fs_store (name : str) (data : bytes) : M unit :=
  fun _ st =>
    (Ok tt, {| clock := clock st; fs := (name, data) :: fs st;
               stdout := stdout st; stderr := stderr st;
               trace := trace st |}).

Definition sys_exit (A : Type) (code : Z) : M A := raise (SystemExit code).
Arguments sys_exit {A} code.

(** [requests.get(url)]: the request goes out, and the call blocks until
    the response is there. *)
Definition requests_get (url : str) : M Response :=
  log (EGet url) ;;
  tick ;;
  fun w st =>
    match w_get w url with
    | NetFail reason => (Raise (Builtin RequestException reason) 0, st)
    | Responded r => (Ok r, st)
    end.

(** [r.json()] *)
Definition json (r : Response) : M pyval :=
  match resp_json r with
  | Some v => ret v
  | None => raise (Builtin JSONDecodeError [])
  end.

(** [open(filename, "wb")]: creates the file or truncates it. *)
Definition open_wb (filename : str) : M unit :=
  log (EOpenWrite filename) ;;
  fun w st =>
    match w_open_wb w filename with
    | Some reason => (Raise (Builtin OSError reason) 0, st)
    | None => fs_store filename [] w st
    end.

(** [file.write(data)], and the close that ends the [with] block. *)
Definition file_write (filename : str) (data : bytes) : M unit :=
  log (EWrite filename data) ;;
  fs_store filename data.

(** [os.path.getsize(path)] *)
Definition getsize (path : str) : M Z :=
  log (EGetsize path) ;;
  fun _ st =>
    match fs_lookup path (fs st) with
    | Some data => (Ok (Z.of_nat (List.length data)), st)
    | None => (Raise (Builtin FileNotFoundError path) 0, st)
    end.

(** [subprocess.run(args, timeout=timeout)], with or without
    [stdout=PIPE, stderr=PIPE]; it blocks until the program ends or the
    timeout passes. *)
Definition subprocess_run (argv : list str) (timeout : Z) (capture : bool)
    : M CompletedProcess :=
  log (ERun argv timeout capture) ;;
  tick ;;
  fun w st =>
    match w_run w argv timeout with
    | NotFound reason => (Raise (Builtin FileNotFoundError reason) 0, st)
    | TimedOut => (Raise (TimeoutExpired argv timeout) 0, st)
    | Exited code out err _ =>
        (Ok {| cp_args := argv; returncode := code;
               cp_stdout := if capture then Some out else None;
               cp_stderr := if capture then Some err else None |}, st)
    end.

(** [time.time() - start] around a run that ended. *)
Definition elapsed_time (argv : list str) (timeout : Z) : M pyfloat :=
  fun w st =>
    match w_run w argv timeout with
    | Exited _ _ _ elapsed => (Ok elapsed, st)
    | _ => (Ok (Float64 0), st)
    end.

(** *** Operations of the language that can raise *)

(** Reading a local variable that may not have been assigned. *)
Definition local_var (A : Type) (name : string) (v : option A) : M A :=
  match v with
  | Some a => ret a
  | None => raise (Builtin UnboundLocalError (lit name))
  end.

Fixpoint dict_get (key : str) (items : list (str * pyval)) : option pyval :=
  match items with
  | [] => None
  | (k, v) :: items' => if str_eqb k key then Some v else dict_get key items'
  end.

(** [v[key]] for a string key. *)
Definition subscript (v : pyval) (key : str) : M pyval :=
  match v with
  | PDict items =>
      match dict_get key items with
      | Some x => ret x
      | None => raise (Builtin KeyError key)
      end
  | _ => raise (Builtin TypeError (type_name v))
  end.

(** [v.split(sep)]: only a [str] has the method. *)
Definition method_split (v : pyval) (sep : str) : M (list str) :=
  match v with
  | PStr s => ret (split sep s)
  | _ => raise (Builtin AttributeError (lit "split"))
  end.

(** [b.decode(encoding='UTF-8')] where [b] may be [None]. *)
Definition method_decode (b : option bytes) : M str :=
  match b with
  | None => raise (Builtin AttributeError (lit "decode"))
  | Some bs =>
      match utf8_decode bs with
      | Some s => ret s
      | None => raise (Builtin UnicodeDecodeError [])
      end
  end.

Definition index (A : Type) (x : option A) : M A :=
  match x with
  | Some a => ret a
  | None => raise (Builtin IndexError [])
  end.

(** ** The script *)

Definition nl : str := [10%N].
Definition dq : str := [34%N].

(** Lines 47-50 *)
Definition DIRECTORY : str := lit "/tmp/release".
Definition RELEASE_INFO : str :=
  lit "https://api.github.com/repos/govready/govready-q/releases/latest".
Definition RELEASE_TAG_URL : str :=
  lit "https://github.com/GovReady/govready-q/archive/refs/tags/".
Definition SPACER : str := nl ++ lit "====" ++ nl.

(** Lines 64-70: [ReturncodeNonZeroError.__init__(completed_process, msg=None)] *)
Definition new_ReturncodeNonZeroError (completed_process : CompletedProcess)
    (msg : option str) : exn :=
  let msg :=
    match msg with
    | None => lit "An external program or script returned an error."
    | Some m => m
    end in
  ReturncodeNonZeroError completed_process msg.

(** Lines 73-80: the defaults of [init_argparse]. *)
Definition default_args : Args :=
  {| non_interactive := false; args_timeout := 120; user := false;
     verbose := 0; docker := false |}.

(** [if x:] for the count of [--verbose] flags. *)
Definition truthy (n : nat) : bool := negb (Nat.eqb n 0).

(** Lines 88-96 *)
Definition run_optionally_verbose (args : list str) (timeout : Z)
    (verbose_flag : nat) : M CompletedProcess :=
  v <- stmt 89 (ret (truthy verbose_flag)) ;;
  p <- (if v : bool then
          stmt 91 (ret tt) ;;
          p <- stmt 92 (subprocess_run args timeout false) ;;
          stmt 93 (d <- elapsed_time args timeout ;;
                   print [Lit (lit "Elapsed time: "); Fmt (lit "1f") (PFloat d);
                          Lit (lit " seconds.")]) ;;
          ret p
        else
          stmt 95 (subprocess_run args timeout true)) ;;
  stmt 96 (ret p).

(** Line 121: the local name of the file behind [url]. *)
Definition download_filename (url : str) : M str :=
  last <- index (index_last (split (lit "/") url)) ;;
  ret (lit "govready-q-" ++ replace (lit " ") (lit "_") last).

(** Lines 118-127 *)
Definition download (url : str) : M str :=
  filename <- stmt 121 (download_filename url) ;;
  downloaded_obj <- stmt 122 (requests_get url) ;;
  stmt 123 (open_wb filename) ;;
  stmt 124 (file_write filename (content downloaded_obj)) ;;
  result <- stmt 125 (ret filename) ;;
  stmt 127 (ret result).

(** Lines 179-186 *)
Definition html_block (release_name ext checksum : str) (size : Z) : str :=
  nl ++
  lit "            <tr>" ++ nl ++
  lit "              <td class=" ++ dq ++ lit "release" ++ dq ++ lit ">"
    ++ release_name ++ lit "</td>" ++ nl ++
  lit "              <td><a href=" ++ dq ++ lit "govready-q-" ++ release_name
    ++ ext ++ dq ++ lit ">govready-q-" ++ release_name ++ ext
    ++ lit "</a></td>" ++ nl ++
  lit "              <td>" ++ checksum ++ lit "</td>" ++ nl ++
  lit "              <td>" ++ str_of_int size ++ lit " MB</td>" ++ nl ++
  lit "            </tr>" ++ nl ++
  lit "            ".

(** Lines 166-169: the checksum command for [file]. *)
Definition get_checksum (args : Args) (file : str) : list str :=
  if user args
  then [lit "shasum"; lit "-a"; lit "256"; lit "--user"; file]
  else [lit "shasum"; lit "-a"; lit "256"; file].

(** Line 175: [p.stdout.decode(encoding='UTF-8').split(" ")[0]] *)
Definition parse_checksum (p : CompletedProcess) : M str :=
  out <- method_decode (cp_stdout p) ;;
  index (index_first (split (lit " ") out)).

(** Lines 153-191: the body of the loop over the two extensions. *)
Definition iteration (args : Args) (release_name ext : str) : M unit :=
  url <- stmt 155 (ret (RELEASE_TAG_URL ++ release_name ++ ext)) ;;
  stmt 156 (print [Lit (lit "downloading " ++ url)]) ;;
  file <- stmt 157 (download url) ;;
  stmt 158 (print [Lit (lit "Downloaded " ++ file)]) ;;
  size <- stmt 161 (getsize file) ;;
  stmt 162 (print [Lit (lit "... filesize is " ++ str_of_int size ++ lit ".")]) ;;
  stmt 165 (print [Lit (lit "Get checksum")]) ;;
  command <- stmt 166 (ret (get_checksum args file)) ;;
  p <- stmt 171
    (run_optionally_verbose command (args_timeout args) (verbose args)) ;;
  failed <- stmt 172 (ret (negb (returncode p =? 0)%Z)) ;;
  (if failed : bool
   then stmt 173 (raise (new_ReturncodeNonZeroError p None))
   else ret tt) ;;
  checksum <- stmt 175 (parse_checksum p) ;;
  stmt 176 (print [Lit (lit "checksum is " ++ checksum)]) ;;
  stmt 177 (ret tt) ;;
  block <- stmt 179 (ret (html_block release_name ext checksum size)) ;;
  stmt 188 (print [Lit block]) ;;
  stmt 191 (print [Lit SPACER]).

(** Lines 138-150: the latest release's name, from its page's address. *)
Definition resolve_release : M str :=
  r <- stmt 138 (requests_get RELEASE_INFO) ;;
  ok <- stmt 139 (ret (status_code r =? 200)%Z) ;;
  release_info <-
    (if ok : bool then
       v <- stmt 140 (json r) ;;
       stmt 141 (ret tt) ;;
       ret (Some v)
     else
       stmt 143 (print [Lit (lit
         "An error occurred while attempting to retrieve data from the API.")]) ;;
       ret None) ;;
  stmt 146
    (info <- local_var "release_info" release_info ;;
     v <- subscript info (lit "html_url") ;;
     print (Lit (lit "release_info.html_url") :: Lit (lit " ") :: show v)) ;;
  stmt 147 (print [Lit SPACER]) ;;
  release_name <- stmt 149
    (info <- local_var "release_info" release_info ;;
     v <- subscript info (lit "html_url") ;;
     parts <- method_split v (lit "/") ;;
     index (index_last parts)) ;;
  stmt 150 (print [Lit (lit "Getting release " ++ release_name)]) ;;
  ret release_name.

(** Line 153 *)
Definition extensions : list str := [lit ".zip"; lit ".tar.gz"].

(** Lines 133-191: the body of the [try]. *)
Definition pipeline (args : Args) : M unit :=
  stmt 134 (ret tt) ;;
  stmt 135 (ret tt) ;;
  release_name <- resolve_release ;;
  for_each 153 extensions (iteration args release_name).

Definition XCRUN_MISSING : str :=
  lit "xcrun: error: invalid active developer path (/Library/Developer/CommandLineTools), missing xcrun at: /Library/Developer/CommandLineTools/usr/bin/xcrun".

(** Lines 208-234: the [except] clauses, in order; [lineno] is
    [sys.exc_info()[2].tb_lineno]. *)
Definition handler (args : Args) (err : exn) (lineno : nat) : M unit :=
  match err with
  | ReturncodeNonZeroError p _ =>
      stmt 209 (ret tt) ;;
      stmt 210 (stderr_write
        [Lit (nl ++ nl ++ lit "Fatal error, exiting: external program or script ");
         Fmt [] (PList (map PStr (cp_args p)));
         Lit (lit " returned error code ");
         Lit (str_of_int (returncode p));
         Lit (lit "." ++ nl ++ nl)]) ;;
      missing <- stmt 214
        (match cp_stderr p with
         | None => ret false
         | Some [] => ret false
         | Some b => e <- method_decode (Some b) ;; ret (contains XCRUN_MISSING e)
         end) ;;
      (if missing : bool
       then stmt 215 (stderr_write
         [Lit (lit "Suggested fix (see documentation): You need to do 'xcode-select --install'."
               ++ nl ++ nl)])
       else ret tt) ;;
      stmt 216 (sys_exit 1)
  | TimeoutExpired cmd timeout =>
      stmt 219
        (match format_1f timeout with
         | None => raise (Builtin OverflowError [])
         | Some seconds =>
             stderr_write
               [Lit (nl ++ nl ++ lit "Fatal error, exiting: external program or script ");
                Fmt [] (PList (map PStr cmd));
                Lit (lit " took longer than ");
                Lit seconds;
                Lit (lit " seconds." ++ nl ++ nl)]
         end) ;;
      stmt 220 (stderr_write
        [Lit (lit "Suggested fix: run again with '--timeout ");
         Lit (str_of_int (Z.max (args_timeout args + 120) 600));
         Lit (lit "'." ++ nl ++ nl)]) ;;
      stmt 221 (sys_exit 1)
  | HaltedError _ =>
      stmt 224 (stderr_write
        (Lit (nl ++ nl ++ lit "Install halted because: ") :: show_exn err
         ++ [Lit (lit "." ++ nl ++ nl)])) ;;
      stmt 225 (sys_exit 1)
  | FatalError _ =>
      stmt 228 (stderr_write
        (Lit (nl ++ nl ++ lit "Fatal error, exiting: ") :: show_exn err
         ++ [Lit (lit "." ++ nl ++ nl)])) ;;
      stmt 229 (sys_exit 1)
  | _ =>
      stmt 233 (stderr_write
        (Lit (nl ++ nl ++ lit "Fatal error, exiting: unrecognized error on line ")
         :: Lit (str_of_int (Z.of_nat lineno))
         :: Lit (lit ", " ++ dq) :: show_exn err
         ++ [Lit (dq ++ lit "." ++ nl ++ nl)])) ;;
      stmt 234 (sys_exit 1)
  end.

(** Line 130 *)
Definition banner : M unit :=
  stmt 130 (print [Lit (lit
    ">>>>>>>>>> Welcome to the GovReady-Q Release Publisher Assistant <<<<<<<<<"
    ++ nl)]).

(** Lines 129-234 *)
Definition main (args : Args) : M unit :=
  banner ;;
  try_except (pipeline args) (handler args).

(** Lines 236-237: [exit(main())].  [main] returns [None], the status is
    0; a [SystemExit] carries its status; any other exception leaving
    [main] ends the interpreter with a traceback and status 1. *)
Definition exit_status (r : Result unit) : Z :=
  match r with
  | Ok _ => 0
  | Raise (SystemExit code) _ => code
  | Raise _ _ => 1
  end.

Definition run (args : Args) (w : World) : Result unit * State :=
  main args w (initial w).

Definition status_of (args : Args) (w : World) : Z :=
  exit_status (fst (run args w)).

(** The state in which the [try] block is entered. *)
Definition started (w : World) : State := snd (banner w (initial w)).

(** What the [try] block does, before any handler. *)
Definition attempt (args : Args) (w : World) : Result unit * State :=
  pipeline args w (started w).

(** ** The helpers [main] does not call *)

(** [try: body / except FileNotFoundError as err: handler] *)
Definition is_FileNotFoundError (e : exn) : bool :=
  match e with
  | Builtin FileNotFoundError _ => true
  | _ => false
  end.

Definition try_except_only (A : Type) (caught : exn -> bool) (body : M A)
    (handler : exn -> M A) : M A :=
  fun w st =>
    match body w st with
    | (Ok a, st') => (Ok a, st')
    | (Raise e l, st') =>
        if caught e then handler e w st' else (Raise e l, st')
    end.

(** Lines 98-104 *)
Definition check_has_command (command_array : list str) : M bool :=
  try_except_only is_FileNotFoundError
    (p <- stmt 101 (subprocess_run command_array 5 true) ;;
     stmt 102 (ret true))
    (fun err => stmt 104 (ret false)).

(** What [check_package_version] needs of the machine: the interpreter's
    own path ([sys.executable]), what a program run without a timeout
    does, and [json.loads] ([None] when it raises). *)
Inductive UntimedOutcome :=
| UNotFound (reason : str)
| UExited (code : Z) (out err : bytes).

Record Host := {
  sys_executable : str;
  host_run : list str -> UntimedOutcome;
  json_loads : str -> option pyval
}.

(** [subprocess.run(args, stdout=PIPE, stderr=PIPE)], no timeout. *)
Definition subprocess_run_untimed (h : Host) (argv : list str)
    : M CompletedProcess :=
  tick ;;
  fun _ st =>
    match host_run h argv with
    | UNotFound reason => (Raise (Builtin FileNotFoundError reason) 0, st)
    | UExited code out err =>
        (Ok {| cp_args := argv; returncode := code;
               cp_stdout := Some out; cp_stderr := Some err |}, st)
    end.

(** [for x in v]: the elements of a list, the keys of a dict, the
    characters of a string; nothing else is iterable. *)
Definition iterate (v : pyval) : M (list pyval) :=
  match v with
  | PList l => ret l
  | PDict items => ret (map (fun kv => PStr (fst kv)) items)
  | PStr s => ret (map (fun c => PStr [c]) s)
  | _ => raise (Builtin TypeError (type_name v))
  end.

(** [v == s] for a string [s]. *)
Definition equals_str (v : pyval) (s : str) : bool :=
  match v with
  | PStr t => str_eqb t s
  | _ => false
  end.

(** Lines 113-116: the loop over the packages, and the return after it. *)
Fixpoint scan_packages (package_name : str) (packages : list pyval)
    : M (bool * pyval * pyval) :=
  match packages with
  | [] =>
      stmt 113 (ret tt) ;;
      stmt 116 (ret (true, PNone, PNone))
  | package :: rest =>
      stmt 113 (ret tt) ;;
      found <- stmt 114 (name <- subscript package (lit "name") ;;
                         ret (equals_str name package_name)) ;;
      if found : bool then
        stmt 115 (version <- subscript package (lit "version") ;;
                  latest <- subscript package (lit "latest_version") ;;
                  ret (false, version, latest))
      else scan_packages package_name rest
  end.

Definition pip_list_outdated (h : Host) : list str :=
  [sys_executable h; lit "-m"; lit "pip"; lit "list"; lit "--outdated";
   lit "--format"; lit "json"].

(** Lines 110-116 *)
Definition check_package_version (h : Host) (package_name : str)
    : M (bool * pyval * pyval) :=
  p <- stmt 111 (subprocess_run_untimed h (pip_list_outdated h)) ;;
  packages <- stmt 112
    (listing <- method_decode (cp_stdout p) ;;
     match json_loads h listing with
     | Some v => ret v
     | None => raise (Builtin JSONDecodeError [])
     end) ;;
  elements <- stmt 113 (iterate packages) ;;
  scan_packages package_name elements.

(** ** Reference definitions

    What the properties below compare the script's string handling with. *)

(** Splitting at every occurrence of the character [c]. *)
Fixpoint split1 (c : char) (s : str) : list str :=
  match s with
  | [] => [[]]
  | x :: s' =>
      if N.eqb c x then [] :: split1 c s'
      else match split1 c s' with
           | h :: t => (x :: h) :: t
           | [] => [[x]]
           end
  end.

(** [seg] is what follows the last [c] of [s] (all of [s] if there is
    none). *)
Definition last_segment (c : char) (s seg : str) : Prop :=
  ~ In c seg /\ (s = seg \/ exists pre, s = pre ++ c :: seg).

(** [tok] is what precedes the first [c] of [s] (all of [s] if there is
    none). *)
Definition first_segment (c : char) (s tok : str) : Prop :=
  ~ In c tok /\ (s = tok \/ exists rest, s = tok ++ c :: rest).

(** [c.isspace()]: the characters [str.split()] without arguments splits
    at. *)
Definition is_whitespace (c : char) : bool :=
  in_range 9 13 c || in_range 28 32 c || N.eqb c 133 || N.eqb c 160
  || N.eqb c 5760 || in_range 8192 8202 c || N.eqb c 8232 || N.eqb c 8233
  || N.eqb c 8239 || N.eqb c 8287 || N.eqb c 12288.

Fixpoint take_token (s : str) : str :=
  match s with
  | [] => []
  | x :: s' => if is_whitespace x then [] else x :: take_token s'
  end.

(** The first whitespace-delimited token, [s.split()[0]]; [None] when
    there is none. *)
Fixpoint first_token (s : str) : option str :=
  match s with
  | [] => None
  | x :: s' => if is_whitespace x then first_token s' else Some (take_token s)
  end.


(** A printed line is a table row, or the line that reports a checksum. *)
Definition is_row (t : text) : bool :=
  match t with
  | [Lit s] => starts_with (nl ++ lit "            <tr>") s
  | _ => false
  end.

Definition is_checksum_line (t : text) : bool :=
  match t with
  | [Lit s] => starts_with (lit "checksum is ") s
  | _ => false
  end.


(** A package of pip's listing with a name other than [package_name]. *)
Definition other_package (package_name : str) (pkg : pyval) : Prop :=
  exists items n,
    pkg = PDict items /\ dict_get (lit "name") items = Some n
    /\ equals_str n package_name = false.

(** What is wrong, for the script, with the body of a metadata response:
    the error it will meet and the line of [main] where it meets it;
    [None] when the body is an object whose [html_url] is a string. *)
Definition metadata_error (meta : Response) : option (builtin * str * nat) :=
  match resp_json meta with
  | None => Some (JSONDecodeError, [], 140)
  | Some (PDict items) =>
      match dict_get (lit "html_url") items with
      | None => Some (KeyError, lit "html_url", 146)
      | Some (PStr _) => None
      | Some _ => Some (AttributeError, lit "split", 149)
      end
  | Some v => Some (TypeError, type_name v, 146)
  end.

(** How many events of a kind the trace holds. *)
Definition is_open (e : event) : bool :=
  match e with EOpenWrite _ => true | _ => false end.
Definition is_write (e : event) : bool :=
  match e with EWrite _ _ => true | _ => false end.
Definition is_run (e : event) : bool :=
  match e with ERun _ _ _ => true | _ => false end.
Definition is_get (e : event) : bool :=
  match e with EGet _ => true | _ => false end.

Definition count (A : Type) (p : A -> bool) (l : list A) : nat :=
  List.length (filter p l).

(** The addresses requested, in order. *)
Fixpoint requests (tr : list event) : list str :=
  match tr with
  | [] => []
  | EGet url :: tr' => url :: requests tr'
  | _ :: tr' => requests tr'
  end.

Definition slash : char := 47%N.
Definition space : char := 32%N.
Definition underscore : char := 95%N.

(** [s'] has done what [s] has done, and possibly more. *)
Definition prefix_of (A : Type) (a b : list A) : Prop :=
  exists more, b = a ++ more.

Definition extends (s s' : State) : Prop :=
  prefix_of (stdout s) (stdout s') /\ prefix_of (stderr s) (stderr s')
  /\ prefix_of (trace s) (trace s').

(** A computation treats control-C as the signal handler of line 53 does:
    compared with its run under an operator who never interrupts, a signal
    delivered at one of the points the run passes ends it there with
    [SystemExit(0)], having done a part of what the whole run does, and a
    signal at any other time changes nothing. *)
Definition sigint_ok (A : Type) (m : M A) : Prop :=
  forall (w : World) (st : State) (n : nat),
    let q := m (quiet w) st in
    clock st <= clock (snd q) /\
    extends st (snd q) /\
    (clock st <= n < clock (snd q) ->
     exists l s, m (interrupted_at n w) st = (Raise (SystemExit 0) l, s)
                 /\ extends st s /\ extends s (snd q)) /\
    (n < clock st \/ clock (snd q) <= n ->
     m (interrupted_at n w) st = q).

(** Every space of [s] replaced by an underscore. *)
Definition spaces_to_underscores (s : str) : str :=
  map (fun x => if N.eqb space x then underscore else x) s.

(** ** Scenarios

    Concrete worlds.  The first is the end-to-end scenario: the latest
    release is 1.2.3, both archives are served, the checksum command
    prints a digest and the file's name. *)

Definition page_1_2_3 : str := lit "https://github.com/x/y/releases/tag/1.2.3".

Definition metadata_1_2_3 : Response :=
  {| status_code := 200; content := [];
     resp_json := Some (PDict [(lit "tag_name", PStr (lit "v1.2.3"));
                               (lit "html_url", PStr page_1_2_3)]) |}.

Definition archive_bytes : bytes := blit "PK-archive-bytes".

Definition shasum_output : bytes :=
  blit "abcd1234  govready-q-1.2.3.zip" ++ [x0a].

Definition world_1_2_3 : World :=
  {| w_get := fun url =>
       if str_eqb url RELEASE_INFO then Responded metadata_1_2_3
       else Responded {| status_code := 200; content := archive_bytes;
                         resp_json := None |};
     w_open_wb := fun _ => None;
     w_run := fun _ _ => Exited 0 shasum_output [] (Float64 0);
     w_files := [];
     w_sigint := None |}.


(** The archives are not there: the server answers 404 with a short body. *)
Definition world_archive_404 : World :=
  {| w_get := fun url =>
       if str_eqb url RELEASE_INFO then Responded metadata_1_2_3
       else Responded {| status_code := 404; content := blit "Not Found";
                         resp_json := None |};
     w_open_wb := fun _ => None;
     w_run := fun _ _ => Exited 0 shasum_output [] (Float64 0);
     w_files := [];
     w_sigint := None |}.

(** The network fails when the archives are fetched. *)
Definition world_archive_unreachable : World :=
  {| w_get := fun url =>
       if str_eqb url RELEASE_INFO then Responded metadata_1_2_3
       else NetFail (lit "Connection refused");
     w_open_wb := fun _ => None;
     w_run := fun _ _ => Exited 0 shasum_output [] (Float64 0);
     w_files := [];
     w_sigint := None |}.

(** The checksum command fails, or does not end in time. *)
Definition world_shasum_fails : World :=
  {| w_get := w_get world_1_2_3; w_open_wb := fun _ => None;
     w_run := fun _ _ => Exited 1 [] (blit "shasum: bad option") (Float64 0);
     w_files := []; w_sigint := None |}.

Definition world_shasum_missing : World :=
  {| w_get := w_get world_1_2_3; w_open_wb := fun _ => None;
     w_run := fun _ _ => NotFound (lit "No such file or directory: 'shasum'");
     w_files := []; w_sigint := None |}.

Definition world_shasum_hangs : World :=
  {| w_get := w_get world_1_2_3; w_open_wb := fun _ => None;
     w_run := fun _ _ => TimedOut;
     w_files := []; w_sigint := None |}.

(** A machine on which pip reports one outdated package. *)
Definition requests_entry : pyval :=
  PDict [(lit "name", PStr (lit "requests"));
         (lit "version", PStr (lit "2.25.0"));
         (lit "latest_version", PStr (lit "2.31.0"))].

(** The text pip prints for it:
    [[{"name": "requests", "version": "2.25.0", "latest_version": "2.31.0"}]] *)
Definition quoted (s : string) : bytes := [x22] ++ blit s ++ [x22].

Definition pip_listing : bytes :=
  blit "[{" ++ quoted "name" ++ blit ": " ++ quoted "requests" ++ blit ", "
  ++ quoted "version" ++ blit ": " ++ quoted "2.25.0" ++ blit ", "
  ++ quoted "latest_version" ++ blit ": " ++ quoted "2.31.0" ++ blit "}]".

Definition host_one_outdated : Host :=
  {| sys_executable := lit "/usr/bin/python3";
     host_run := fun _ => UExited 0 pip_listing [];
     json_loads := fun s =>
       if str_eqb s (map Byte.to_N pip_listing)
       then Some (PList [requests_entry]) else None |}.

Definition verbose_args : Args :=
  {| non_interactive := false; args_timeout := 120; user := false;
     verbose := 1; docker := false |}.

Definition url_1_2_3_zip : str := RELEASE_TAG_URL ++ lit "1.2.3" ++ lit ".zip".

(** The operator presses control-C while the first archive is being
    fetched: the eighteenth point of interruption is inside that
    request. *)
Definition world_interrupted_mid_download : World :=
  interrupted_at 18 world_1_2_3.

Example split_slashes :
  split (lit "/") (lit "https://github.com/x/y/releases/tag/1.2.3")
  = map lit ["https:"; ""; "github.com"; "x"; "y"; "releases"; "tag"; "1.2.3"].
Proof. reflexivity. Qed.

Example split_trailing : split (lit "/") (lit "a/") = [lit "a"; []].
Proof. reflexivity. Qed.

Example split_long_sep :
  split (lit "ab") (lit "xabyababz") = map lit ["x"; "y"; ""; "z"].
Proof. reflexivity. Qed.

Example replace_spaces :
  replace (lit " ") (lit "_") (lit "v 1 .zip") = lit "v_1_.zip".
Proof. reflexivity. Qed.

Example replace_long :
  replace (lit "aa") (lit "b") (lit "aaaxaa") = lit "baxb".
Proof. reflexivity. Qed.

Example decode_ascii :
  utf8_decode (blit "abcd  f.zip") = Some (lit "abcd  f.zip").
Proof. reflexivity. Qed.

Example decode_two_bytes : utf8_decode [xc3; xa9] = Some [233%N].
Proof. reflexivity. Qed.

Example decode_euro : utf8_decode [xe2; x82; xac] = Some [8364%N].
Proof. reflexivity. Qed.

Example decode_astral : utf8_decode [xf0; x9f; x98; x80] = Some [128512%N].
Proof. reflexivity. Qed.

Example decode_overlong : utf8_decode [xc0; x80] = None.
Proof. reflexivity. Qed.

Example decode_surrogate : utf8_decode [xed; xa0; x80] = None.
Proof. reflexivity. Qed.

Example decode_lone_ff : utf8_decode [xff] = None.
Proof. reflexivity. Qed.

Example str_of_int_examples :
  str_of_int 0 = lit "0" /\ str_of_int 1000000 = lit "1000000"
  /\ str_of_int (-5) = lit "-5".
Proof. repeat split; reflexivity. Qed.

(** * Properties *)

(** ** Splitting and replacing on a single character

    The script splits on ["/"] and [" "] and replaces [" "]; for such
    one-character arguments the general scans above reduce to the
    elementary functions below. *)

Section OneChar.

Variable c : char.

Lemma split1_nonempty (s : str) : split1 c s <> [].
Proof.
  destruct s as [|x s']; simpl; [discriminate|].
  destruct (N.eqb c x); [discriminate|].
  destruct (split1 c s'); discriminate.
Qed.

Lemma split_go_cur (s cur : str) :
  split_go [c] s cur 0 =
  match split_go [c] s [] 0 with
  | h :: t => (rev cur ++ h) :: t
  | [] => []
  end.
Proof.
  revert cur. induction s as [|x s' IH]; intros cur; simpl.
  - now rewrite app_nil_r.
  - destruct (N.eqb c x); simpl.
    + now rewrite app_nil_r.
    + rewrite (IH (x :: cur)), (IH [x]).
      destruct (split_go [c] s' [] 0) as [|h t]; [reflexivity|].
      simpl. now rewrite <- app_assoc.
Qed.

Lemma split_single (s : str) : split [c] s = split1 c s.
Proof.
  unfold split. induction s as [|x s' IH]; simpl; [reflexivity|].
  destruct (N.eqb c x); simpl.
  - now rewrite IH.
  - rewrite split_go_cur, IH.
    destruct (split1 c s') as [|h t] eqn:E; [|reflexivity].
    now destruct (split1_nonempty _ E).
Qed.

Lemma split1_first (s : str) :
  exists tok, index_first (split1 c s) = Some tok /\ first_segment c s tok.
Proof.
  induction s as [|x s' [tok [Hi [Hn Hs]]]]; simpl.
  - exists []. repeat split; auto.
  - destruct (N.eqb_spec c x) as [<-|Hne].
    + exists []. repeat split; auto. right. now exists s'.
    + destruct (split1 c s') as [|h t]; [discriminate|].
      simpl in Hi. injection Hi as ->.
      exists (x :: tok). split; [reflexivity|]. split.
      * intros [H|H]; [now apply Hne|now apply Hn].
      * destruct Hs as [->|[rest ->]]; [now left|right; now exists rest].
Qed.

Lemma index_last_cons (A : Type) (x : A) (l : list A) :
  l <> [] -> index_last (x :: l) = index_last l.
Proof. destruct l; [congruence|reflexivity]. Qed.

Lemma split1_no_sep (s : str) : ~ In c s -> split1 c s = [s].
Proof.
  induction s as [|x s' IH]; simpl; [reflexivity|].
  intros H. destruct (N.eqb_spec c x) as [<-|_]; [now destruct H; left|].
  now rewrite IH by (intros K; apply H; now right).
Qed.

Lemma split1_has_sep (pre seg : str) :
  exists h1 h2 t, split1 c (pre ++ c :: seg) = h1 :: h2 :: t.
Proof.
  induction pre as [|y pre (h1 & h2 & t & IH)]; simpl.
  - rewrite N.eqb_refl.
    destruct (split1 c seg) as [|h t] eqn:E;
      [now destruct (split1_nonempty _ E)|].
    now exists [], h, t.
  - rewrite IH. destruct (N.eqb c y).
    + now exists [], h1, (h2 :: t).
    + now exists (y :: h1), h2, t.
Qed.

Lemma split1_last (s : str) :
  exists seg, index_last (split1 c s) = Some seg /\ last_segment c s seg.
Proof.
  induction s as [|x s' [seg [Hi [Hn Hs]]]]; simpl.
  - exists []. repeat split; auto.
  - destruct (N.eqb_spec c x) as [<-|Hne].
    + rewrite index_last_cons by apply split1_nonempty.
      exists seg. repeat split; auto.
      right. destruct Hs as [->|[pre ->]].
      * now exists [].
      * now exists (c :: pre).
    + destruct (split1 c s') as [|h [|h' t']] eqn:E; [discriminate| |].
      * simpl in Hi. injection Hi as ->.
        exists (x :: seg). split; [reflexivity|].
        destruct Hs as [->|[pre ->]].
        -- split; [|now left].
           intros [H|H]; [now apply Hne|now apply Hn].
        -- destruct (split1_has_sep pre seg) as (h1 & h2 & t & K).
           congruence.
      * exists seg. split; [exact Hi|]. split; [exact Hn|].
        right. destruct Hs as [->|[pre ->]].
        -- rewrite (split1_no_sep _ Hn) in E. discriminate.
        -- now exists (x :: pre).
Qed.

(** The last segment of a string is unique. *)
Lemma last_segment_unique (s a b : str) :
  last_segment c s a -> last_segment c s b -> a = b.
Proof.
  intros [Ha Hsa] [Hb Hsb].
  assert (K : forall p q x y : str,
             ~ In c x -> ~ In c y -> p ++ x = q ++ y ->
             (p = [] \/ exists p', p = p' ++ [c]) ->
             (q = [] \/ exists q', q = q' ++ [c]) -> x = y).
  { induction p as [|u p IH]; intros q x y Hx Hy E Hp Hq.
    - destruct q as [|v q]; [exact E|]. exfalso. simpl in E. subst x.
      destruct Hq as [Hq|[q' Hq]]; [discriminate|].
      apply Hx. change (In c ((v :: q) ++ y)).
      rewrite Hq, <- app_assoc. apply in_or_app. right. now left.
    - destruct q as [|v q].
      + exfalso. simpl in E. subst y.
        destruct Hp as [Hp|[p' Hp]]; [discriminate|].
        apply Hy. change (In c ((u :: p) ++ x)).
        rewrite Hp, <- app_assoc. apply in_or_app. right. now left.
      + simpl in E. injection E as -> E.
        apply (IH q x y Hx Hy E).
        * destruct Hp as [Hp|[p' Hp]]; [discriminate|].
          destruct p' as [|w p']; simpl in Hp; injection Hp as -> ->;
            [now left|right; now exists p'].
        * destruct Hq as [Hq|[q' Hq]]; [discriminate|].
          destruct q' as [|w q']; simpl in Hq; injection Hq as _ ->;
            [now left|right; now exists q']. }
  destruct Hsa as [Ea|[pa Ea]], Hsb as [Eb|[pb Eb]].
  - congruence.
  - apply (K [] (pb ++ [c]) a b Ha Hb); auto.
    + simpl. rewrite <- app_assoc. simpl. congruence.
    + right. now exists pb.
  - apply (K (pa ++ [c]) [] a b Ha Hb); auto.
    + simpl. rewrite <- app_assoc. simpl. congruence.
    + right. now exists pa.
  - apply (K (pa ++ [c]) (pb ++ [c]) a b Ha Hb).
    + rewrite <- !app_assoc. simpl. congruence.
    + right. now exists pa.
    + right. now exists pb.
Qed.

Variable d : char.

Lemma replace_single (s : str) :
  replace [c] [d] s = map (fun x => if N.eqb c x then d else x) s.
Proof.
  unfold replace. induction s as [|x s' IH]; simpl; [reflexivity|].
  destruct (N.eqb c x); simpl; now rewrite IH.
Qed.

End OneChar.

(** ** Control-C

    Every computation of the script is built from pieces that treat the
    signal as [sigint_ok] says, so the script does. *)

Section Sigint.

Lemma prefix_of_refl (A : Type) (a : list A) : prefix_of a a.
Proof. exists []. now rewrite app_nil_r. Qed.

Lemma prefix_of_trans (A : Type) (a b c : list A) :
  prefix_of a b -> prefix_of b c -> prefix_of a c.
Proof. intros [x ->] [y ->]. exists (x ++ y). now rewrite app_assoc. Qed.

Lemma prefix_of_app (A : Type) (a x : list A) : prefix_of a (a ++ x).
Proof. now exists x. Qed.

Lemma extends_refl (s : State) : extends s s.
Proof. repeat split; apply prefix_of_refl. Qed.

Lemma extends_trans (a b c : State) :
  extends a b -> extends b c -> extends a c.
Proof.
  intros (H1 & H2 & H3) (K1 & K2 & K3).
  repeat split; eapply prefix_of_trans; eassumption.
Qed.

#[local] Hint Resolve prefix_of_refl prefix_of_app extends_refl : core.

(** A computation that neither looks at the signal nor passes a point of
    interruption. *)
Lemma sigint_ok_still (A : Type) (m : M A) :
  (forall w st n, m (interrupted_at n w) st = m (quiet w) st) ->
  (forall w st, clock (snd (m (quiet w) st)) = clock st) ->
  (forall w st, extends st (snd (m (quiet w) st))) ->
  sigint_ok m.
Proof.
  intros Hsame Hclock Hext w st n. cbv zeta. rewrite Hclock.
  split; [lia|]. split; [apply Hext|]. split; [lia|]. intros _. apply Hsame.
Qed.

Lemma sigint_ok_ret (A : Type) (a : A) : sigint_ok (ret a).
Proof. apply sigint_ok_still; intros; simpl; auto. Qed.

Lemma sigint_ok_raise (A : Type) (e : exn) : sigint_ok (@raise A e).
Proof. apply sigint_ok_still; intros; simpl; auto. Qed.

Lemma extends_set_clock (n : nat) (st : State) : extends st (set_clock n st).
Proof. repeat split; simpl; auto. Qed.

Lemma sigint_ok_tick : sigint_ok tick.
Proof.
  intros w st n. unfold tick; simpl.
  split; [lia|]. split; [apply extends_set_clock|]. split.
  - intros H. assert (E : n = clock st) by lia.
    rewrite E, Nat.eqb_refl. do 2 eexists. split; [reflexivity|].
    split; [apply extends_set_clock|apply extends_refl].
  - intros H. destruct (Nat.eqb_spec n (clock st)); [lia|reflexivity].
Qed.

Lemma sigint_ok_bind (A B : Type) (m : M A) (k : A -> M B) :
  sigint_ok m -> (forall a, sigint_ok (k a)) -> sigint_ok (bind m k).
Proof.
  intros Hm Hk w st n. cbv zeta. unfold bind.
  destruct (Hm w st n) as (Hm1 & Hme & Hm2 & Hm3).
  destruct (m (quiet w) st) as [[a|e l] s1] eqn:E;
    simpl in Hm1, Hme, Hm2, Hm3.
  - destruct (Hk a w s1 n) as (Hk1 & Hke & Hk2 & Hk3).
    split; [lia|]. split; [eapply extends_trans; eassumption|]. split.
    + intros H. destruct (Nat.lt_ge_cases n (clock s1)) as [Hlt|Hge].
      * destruct Hm2 as (l & s & -> & X1 & X2); [lia|].
        do 2 eexists. split; [reflexivity|]. split; [exact X1|].
        eapply extends_trans; eassumption.
      * rewrite Hm3 by lia.
        destruct Hk2 as (l & s & -> & X1 & X2); [lia|].
        do 2 eexists. split; [reflexivity|]. split; [|exact X2].
        eapply extends_trans; eassumption.
    + intros H. rewrite Hm3 by lia. apply Hk3. lia.
  - split; [exact Hm1|]. split; [exact Hme|]. split.
    + intros H. destruct Hm2 as (l' & s & -> & X1 & X2); [exact H|]. eauto.
    + intros H. now rewrite Hm3.
Qed.

Lemma sigint_ok_at_line (A : Type) (n : nat) (m : M A) :
  sigint_ok m -> sigint_ok (at_line n m).
Proof.
  intros Hm w st k. cbv zeta. unfold at_line.
  destruct (Hm w st k) as (Hm1 & Hme & Hm2 & Hm3).
  destruct (m (quiet w) st) as [[a|e l] s1] eqn:E;
    simpl in Hm1, Hme, Hm2, Hm3; simpl.
  - split; [exact Hm1|]. split; [exact Hme|]. split.
    + intros H. destruct (Hm2 H) as (l & s & -> & X). eauto.
    + intros H. now rewrite (Hm3 H).
  - split; [exact Hm1|]. split; [exact Hme|]. split.
    + intros H. destruct (Hm2 H) as (l' & s & -> & X). eauto.
    + intros H. now rewrite (Hm3 H).
Qed.

Lemma sigint_ok_stmt (A : Type) (n : nat) (m : M A) :
  sigint_ok m -> sigint_ok (stmt n m).
Proof.
  intros Hm. unfold stmt. apply sigint_ok_bind.
  - apply sigint_ok_tick.
  - intros _. now apply sigint_ok_at_line.
Qed.

Lemma sigint_ok_try_except (A : Type) (body : M A)
    (h : exn -> nat -> M A) :
  sigint_ok body -> (forall e l, sigint_ok (h e l)) ->
  sigint_ok (try_except body h).
Proof.
  intros Hm Hk w st n. cbv zeta. unfold try_except.
  destruct (Hm w st n) as (Hm1 & Hme & Hm2 & Hm3).
  destruct (body (quiet w) st) as [[a|e l] s1] eqn:E;
    simpl in Hm1, Hme, Hm2, Hm3.
  - split; [exact Hm1|]. split; [exact Hme|]. split.
    + intros H. destruct Hm2 as (l' & s & -> & X); [exact H|]. simpl. eauto.
    + intros H. now rewrite Hm3.
  - destruct (is_Exception e) eqn:Ex.
    + destruct (Hk e l w s1 n) as (Hk1 & Hke & Hk2 & Hk3).
      split; [lia|]. split; [eapply extends_trans; eassumption|]. split.
      * intros H. destruct (Nat.lt_ge_cases n (clock s1)) as [Hlt|Hge].
        -- destruct Hm2 as (l' & s & -> & X1 & X2); [lia|]. simpl.
           do 2 eexists. split; [reflexivity|]. split; [exact X1|].
           eapply extends_trans; eassumption.
        -- rewrite Hm3 by lia. rewrite Ex.
           destruct Hk2 as (l' & s & -> & X1 & X2); [lia|].
           do 2 eexists. split; [reflexivity|]. split; [|exact X2].
           eapply extends_trans; eassumption.
      * intros H. rewrite Hm3 by lia. rewrite Ex. apply Hk3. lia.
    + split; [exact Hm1|]. split; [exact Hme|]. split.
      * intros H. destruct Hm2 as (l' & s & -> & X); [exact H|]. simpl. eauto.
      * intros H. rewrite Hm3 by exact H. now rewrite Ex.
Qed.

Ltac still :=
  apply sigint_ok_still;
  [ intros; reflexivity
  | intros; simpl;
    repeat match goal with
           | |- context [match ?x with _ => _ end] => destruct x
           end;
    reflexivity
  | intros; simpl;
    repeat match goal with
           | |- context [match ?x with _ => _ end] => destruct x
           end;
    repeat split; simpl; auto ].

Lemma sigint_ok_log (e : event) : sigint_ok (log e).
Proof. still. Qed.

Lemma sigint_ok_print (t : text) : sigint_ok (print t).
Proof. still. Qed.

Lemma sigint_ok_stderr_write (t : text) : sigint_ok (stderr_write t).
Proof. still. Qed.

Lemma sigint_ok_fs_store (name : str) (data : bytes) :
  sigint_ok (fs_store name data).
Proof. still. Qed.

Lemma sigint_ok_sys_exit (A : Type) (code : Z) : sigint_ok (@sys_exit A code).
Proof. apply sigint_ok_raise. Qed.

Lemma sigint_ok_elapsed_time (argv : list str) (timeout : Z) :
  sigint_ok (elapsed_time argv timeout).
Proof. unfold elapsed_time. still. Qed.

Lemma sigint_ok_requests_get (url : str) : sigint_ok (requests_get url).
Proof.
  unfold requests_get.
  apply sigint_ok_bind; [apply sigint_ok_log|intros _].
  apply sigint_ok_bind; [apply sigint_ok_tick|intros _].
  still.
Qed.

Lemma sigint_ok_subprocess_run (argv : list str) (timeout : Z)
    (capture : bool) :
  sigint_ok (subprocess_run argv timeout capture).
Proof.
  unfold subprocess_run.
  apply sigint_ok_bind; [apply sigint_ok_log|intros _].
  apply sigint_ok_bind; [apply sigint_ok_tick|intros _].
  still.
Qed.

Lemma sigint_ok_open_wb (filename : str) : sigint_ok (open_wb filename).
Proof.
  unfold open_wb. apply sigint_ok_bind; [apply sigint_ok_log|intros _].
  still.
Qed.

Lemma sigint_ok_file_write (filename : str) (data : bytes) :
  sigint_ok (file_write filename data).
Proof.
  unfold file_write. apply sigint_ok_bind; [apply sigint_ok_log|intros _].
  apply sigint_ok_fs_store.
Qed.

Lemma sigint_ok_getsize (path : str) : sigint_ok (getsize path).
Proof.
  unfold getsize. apply sigint_ok_bind; [apply sigint_ok_log|intros _].
  still.
Qed.

Lemma sigint_ok_for_each (A : Type) (n : nat) (l : list A)
    (body : A -> M unit) :
  (forall x, sigint_ok (body x)) -> sigint_ok (for_each n l body).
Proof.
  intros Hb. induction l as [|x l IH]; simpl.
  - apply sigint_ok_stmt, sigint_ok_ret.
  - apply sigint_ok_bind; [apply sigint_ok_stmt, sigint_ok_ret|intros _].
    apply sigint_ok_bind; [apply Hb|intros _; exact IH].
Qed.

Create HintDb sigint.
#[local] Hint Resolve sigint_ok_ret sigint_ok_raise sigint_ok_tick
  sigint_ok_log sigint_ok_print sigint_ok_stderr_write sigint_ok_fs_store
  sigint_ok_sys_exit sigint_ok_elapsed_time sigint_ok_requests_get
  sigint_ok_subprocess_run sigint_ok_open_wb sigint_ok_file_write
  sigint_ok_getsize : sigint.

(** Walks a computation written with the combinators. *)
Ltac sigint_walk :=
  repeat first
    [ progress auto with sigint
    | apply sigint_ok_stmt
    | apply sigint_ok_bind; [|intro]
    | apply sigint_ok_for_each; intro
    | apply sigint_ok_try_except; [|intros ? ?]
    | match goal with
      | |- sigint_ok (if ?b then _ else _) => destruct b
      | |- sigint_ok (match ?x with _ => _ end) => destruct x
      end ].

Lemma sigint_ok_json (r : Response) : sigint_ok (json r).
Proof. unfold json. sigint_walk. Qed.

Lemma sigint_ok_local_var (A : Type) (name : string) (v : option A) :
  sigint_ok (local_var name v).
Proof. unfold local_var. sigint_walk. Qed.

Lemma sigint_ok_subscript (v : pyval) (key : str) :
  sigint_ok (subscript v key).
Proof. unfold subscript. sigint_walk. Qed.

Lemma sigint_ok_method_split (v : pyval) (sep : str) :
  sigint_ok (method_split v sep).
Proof. unfold method_split. sigint_walk. Qed.

Lemma sigint_ok_method_decode (b : option bytes) :
  sigint_ok (method_decode b).
Proof. unfold method_decode. sigint_walk. Qed.

Lemma sigint_ok_index (A : Type) (x : option A) : sigint_ok (index x).
Proof. unfold index. sigint_walk. Qed.

#[local] Hint Resolve sigint_ok_json sigint_ok_local_var sigint_ok_subscript
  sigint_ok_method_split sigint_ok_method_decode sigint_ok_index : sigint.

Lemma sigint_ok_run_optionally_verbose (args : list str) (timeout : Z)
    (verbose_flag : nat) :
  sigint_ok (run_optionally_verbose args timeout verbose_flag).
Proof. unfold run_optionally_verbose. sigint_walk. Qed.

Lemma sigint_ok_download (url : str) : sigint_ok (download url).
Proof. unfold download, download_filename. sigint_walk. Qed.

#[local] Hint Resolve sigint_ok_run_optionally_verbose sigint_ok_download
  : sigint.

Lemma sigint_ok_iteration (args : Args) (release_name ext : str) :
  sigint_ok (iteration args release_name ext).
Proof. unfold iteration, parse_checksum. sigint_walk. Qed.

Lemma sigint_ok_resolve_release : sigint_ok resolve_release.
Proof. unfold resolve_release. sigint_walk. Qed.

#[local] Hint Resolve sigint_ok_iteration sigint_ok_resolve_release : sigint.

Lemma sigint_ok_pipeline (args : Args) : sigint_ok (pipeline args).
Proof. unfold pipeline. sigint_walk. Qed.

Lemma sigint_ok_handler (args : Args) (err : exn) (lineno : nat) :
  sigint_ok (handler args err lineno).
Proof. unfold handler. sigint_walk. Qed.

#[local] Hint Resolve sigint_ok_pipeline sigint_ok_handler : sigint.

Lemma sigint_ok_main (args : Args) : sigint_ok (main args).
Proof. unfold main. sigint_walk. Qed.

End Sigint.

(** ** Running the script by hand

    [unroll] unfolds the combinators and the script, and nothing of the
    strings; [split_case] distinguishes the cases of the innermost thing
    the run depends on (an answer of the world, a test on a value). *)

Ltac unroll :=
  cbv beta iota zeta delta
    [run main banner started attempt pipeline resolve_release iteration
     download download_filename
     run_optionally_verbose parse_checksum handler extensions
     bind ret raise stmt tick at_line try_except for_each
     log print stderr_write fs_store set_clock sys_exit
     requests_get json open_wb file_write getsize subprocess_run elapsed_time
     local_var subscript method_split method_decode index
     new_ReturncodeNonZeroError is_Exception exit_status status_of initial
     clock fs stdout stderr trace
     w_get w_open_wb w_run w_files w_sigint
     cp_args returncode cp_stdout cp_stderr
     fst snd].

Ltac split_case :=
  match goal with
  | |- context [match ?x with _ => _ end] =>
      lazymatch x with
      | context [match _ with _ => _ end] => fail
      | _ => destruct x eqn:?
      end
  end.

Ltac explore := unroll; repeat (split_case; unroll).

(** A world whose operator never interrupts, taken apart. *)
Ltac quiet_world w Hq :=
  let g := fresh "get" in
  let o := fresh "open" in
  let r := fresh "prog" in
  let f := fresh "files" in
  let s := fresh "sig" in
  destruct w as [g o r f s]; simpl in Hq; subst s;
  cbn [w_get w_open_wb w_run w_files w_sigint] in *.

Lemma str_eqb_refl (s : str) : str_eqb s s = true.
Proof. induction s; simpl; [reflexivity|]. now rewrite N.eqb_refl. Qed.

Lemma fs_lookup_head (name : str) (data : bytes) (f : FileSystem) :
  fs_lookup name ((name, data) :: f) = Some data.
Proof. simpl. now rewrite str_eqb_refl. Qed.

Lemma last_of_split_slash (u : str) :
  exists seg,
    index_last (split (lit "/") u) = Some seg /\ last_segment slash u seg.
Proof.
  destruct (split1_last slash u) as (seg & H & L).
  exists seg. split; [|exact L].
  change (lit "/") with [slash]. now rewrite split_single.
Qed.


Lemma first_of_split_space (s : str) :
  exists tok,
    index_first (split (lit " ") s) = Some tok /\ first_segment space s tok.
Proof.
  destruct (split1_first space s) as (tok & H & L).
  exists tok. split; [|exact L].
  change (lit " ") with [space]. now rewrite split_single.
Qed.

Lemma replace_space_underscore (s : str) :
  replace (lit " ") (lit "_") s = spaces_to_underscores s.
Proof. exact (replace_single space underscore s). Qed.

(** ** The release's name *)



(** ** The checksum *)

Lemma first_segment_unique (c : char) (s a b : str) :
  first_segment c s a -> first_segment c s b -> a = b.
Proof.
  revert s b. induction a as [|x a IH]; intros s b [Ha Hsa] [Hb Hsb].
  - destruct b as [|y b]; [reflexivity|]. exfalso.
    destruct Hsa as [->|[ra ->]]; destruct Hsb as [E|[rb E]];
      try discriminate;
      simpl in E; injection E as <- _; apply Hb; now left.
  - destruct b as [|y b].
    + exfalso. destruct Hsa as [->|[ra ->]]; destruct Hsb as [E|[rb E]];
        try discriminate; simpl in E; injection E as -> _; apply Ha; now left.
    + assert (x = y /\ exists s', first_segment c s' a /\ first_segment c s' b)
        as [-> (s' & Fa & Fb)].
      { assert (Ha' : ~ In c a) by (intros K; apply Ha; now right).
        assert (Hb' : ~ In c b) by (intros K; apply Hb; now right).
        destruct Hsa as [->|[ra ->]]; destruct Hsb as [E|[rb E]];
          simpl in E; injection E as -> E; (split; [reflexivity|]).
        - exists a. subst b. split; split; auto.
        - exists a. split; (split; [assumption|]); [now left|].
          right. now exists rb.
        - exists b. split; (split; [assumption|]); [|now left].
          right. exists ra. congruence.
        - exists (a ++ c :: ra). split; (split; [assumption|]); right.
          + now exists ra.
          + now exists rb. }
      f_equal. exact (IH s' b Fa Fb).
Qed.

Lemma take_token_app (hash rest : str) (x : char) :
  forallb (fun y => negb (is_whitespace y)) hash = true ->
  is_whitespace x = true ->
  take_token (hash ++ x :: rest) = hash.
Proof.
  intros H Hx. induction hash as [|y hash IH]; simpl.
  - now rewrite Hx.
  - simpl in H. apply andb_prop in H as [Hy H].
    apply negb_true_iff in Hy. rewrite Hy. now rewrite IH.
Qed.

(** C7. For a checksum command whose decoded output is
    [<hash>  <filename>] followed by anything (a newline, more or less
    white space), where the hash is a non-empty token without white
    space, the checksum the script extracts is the hash: the part of the
    output before its first space, which is also its first
    whitespace-delimited token. *)
Theorem parse_checksum_first_token
    (p : CompletedProcess) (out : bytes) (hash filename trailing : str)
    (w : World) (st : State) :
  cp_stdout p = Some out ->
  utf8_decode out = Some (hash ++ lit "  " ++ filename ++ trailing) ->
  hash <> [] ->
  forallb (fun x => negb (is_whitespace x)) hash = true ->
  parse_checksum p w st = (Ok hash, st)
  /\ first_segment space (hash ++ lit "  " ++ filename ++ trailing) hash
  /\ first_token (hash ++ lit "  " ++ filename ++ trailing) = Some hash.
Proof.
  intros Ho Hd Hne Hws.
  set (s := hash ++ lit "  " ++ filename ++ trailing) in *.
  assert (Hn : ~ In space hash).
  { intros K. rewrite forallb_forall in Hws. now specialize (Hws _ K). }
  assert (Hf : first_segment space s hash).
  { split; [exact Hn|]. right. now exists (space :: filename ++ trailing). }
  destruct (first_of_split_space s) as (tok & Hi & Ht).
  assert (tok = hash) as -> by exact (first_segment_unique Ht Hf).
  split; [|split; [exact Hf|]].
  - unfold parse_checksum. rewrite Ho. unfold method_decode. rewrite Hd.
    unroll. now rewrite Hi.
  - subst s. destruct hash as [|x hash]; [congruence|].
    assert (Hx : is_whitespace x = false).
    { simpl in Hws. apply andb_prop in Hws as [Hx _].
      now apply negb_true_iff in Hx. }
    change ((x :: hash) ++ lit "  " ++ filename ++ trailing)
      with (x :: (hash ++ space :: (space :: filename ++ trailing))).
    cbn [first_token]. rewrite Hx. cbn [take_token]. rewrite Hx.
    f_equal. f_equal. apply take_token_app; [|reflexivity].
    simpl in Hws. now apply andb_prop in Hws as [_ Hws].
Qed.

Lemma parse_checksum_first_token_witness :
  let p := {| cp_args := get_checksum default_args (lit "govready-q-1.2.3.zip");
              returncode := 0; cp_stdout := Some shasum_output;
              cp_stderr := Some [] |} in
  let s := lit "abcd1234" ++ lit "  " ++ lit "govready-q-1.2.3.zip" ++ nl in
  parse_checksum p world_1_2_3 (initial world_1_2_3)
    = (Ok (lit "abcd1234"), initial world_1_2_3)
  /\ first_segment space s (lit "abcd1234")
  /\ first_token s = Some (lit "abcd1234").
Proof.
  cbv zeta.
  apply (@parse_checksum_first_token _ shasum_output (lit "abcd1234")
           (lit "govready-q-1.2.3.zip") nl world_1_2_3 (initial world_1_2_3)).
  - reflexivity.
  - reflexivity.
  - discriminate.
  - reflexivity.
Defined.

(** ** Downloads *)

(** C8. When a download succeeds, the local file exists afterwards and
    holds the response body that was written, and the size the script then
    reads from the file system is the length of that body. *)
Theorem download_size_reported
    (url : str) (w : World) (st : State) (file : str) (st' : State) :
  download url w st = (Ok file, st') ->
  exists r,
    w_get w url = Responded r
    /\ fs_lookup file (fs st') = Some (content r)
    /\ forall w', fst (getsize file w' st')
                  = Ok (Z.of_nat (List.length (content r))).
Proof.
  destruct w as [get open prog files sig]. destruct st as [c f so se tr].
  match goal with |- _ -> ?G => set (claim := G) end.
  explore; intros H; try discriminate H;
    injection H as <- <-; subst claim;
    match goal with
    | K : get url = Responded ?r |- _ => exists r
    end;
    (split; [assumption|]);
    (split; [apply fs_lookup_head|]);
    intros w'; unroll; now rewrite fs_lookup_head.
Qed.

Lemma download_size_reported_witness :
  exists r,
    w_get world_1_2_3 url_1_2_3_zip = Responded r
    /\ fs_lookup (lit "govready-q-1.2.3.zip")
         (fs (snd (download url_1_2_3_zip world_1_2_3 (initial world_1_2_3))))
       = Some (content r)
    /\ forall w',
         fst (getsize (lit "govready-q-1.2.3.zip") w'
                (snd (download url_1_2_3_zip world_1_2_3
                        (initial world_1_2_3))))
         = Ok (Z.of_nat (List.length (content r))).
Proof.
  apply (@download_size_reported url_1_2_3_zip world_1_2_3
           (initial world_1_2_3)).
  reflexivity.
Defined.



(** The end-to-end scenario, run: the three requests, the two files, the
    two rows. *)
Example scenario_1_2_3 :
  fst (run default_args world_1_2_3) = Ok tt
  /\ requests (trace (snd (run default_args world_1_2_3)))
     = [RELEASE_INFO;
        RELEASE_TAG_URL ++ lit "1.2.3.zip";
        RELEASE_TAG_URL ++ lit "1.2.3.tar.gz"]
  /\ fs_lookup (lit "govready-q-1.2.3.zip")
       (fs (snd (run default_args world_1_2_3))) = Some archive_bytes
  /\ fs_lookup (lit "govready-q-1.2.3.tar.gz")
       (fs (snd (run default_args world_1_2_3))) = Some archive_bytes
  /\ In [Lit (html_block (lit "1.2.3") (lit ".zip") (lit "abcd1234") 16)]
       (stdout (snd (run default_args world_1_2_3)))
  /\ In [Lit (html_block (lit "1.2.3") (lit ".tar.gz") (lit "abcd1234") 16)]
       (stdout (snd (run default_args world_1_2_3)))
  /\ stderr (snd (run default_args world_1_2_3)) = [].
Proof.
  split; [vm_compute; reflexivity|].
  split; [vm_compute; reflexivity|].
  split; [vm_compute; reflexivity|].
  split; [vm_compute; reflexivity|].
  split; [vm_compute; do 9 right; left; reflexivity|].
  split; [vm_compute; do 16 right; left; reflexivity|].
  vm_compute; reflexivity.
Qed.

(** C1, as the script has it.  A failed network read makes the download
    raise the HTTP library's exception, at line 122, before any file is
    touched.  The status of a response is not looked at: whatever it is,
    the body is written to the local file and the download returns the
    file's name (unless the file cannot be opened). *)
Theorem download_ignores_status (url : str) (w : World) (st : State) :
  w_sigint w = None ->
  (forall reason,
     w_get w url = NetFail reason ->
     exists st',
       download url w st = (Raise (Builtin RequestException reason) 122, st')
       /\ fs st' = fs st)
  /\ (forall r,
        w_get w url = Responded r ->
        exists seg,
          last_segment slash url seg
          /\ (w_open_wb w (lit "govready-q-" ++ spaces_to_underscores seg)
              = None ->
              exists st',
                download url w st
                = (Ok (lit "govready-q-" ++ spaces_to_underscores seg), st')
                /\ fs_lookup (lit "govready-q-" ++ spaces_to_underscores seg)
                     (fs st') = Some (content r))).
Proof.
  intros Hq. quiet_world w Hq. destruct st as [c f so se tr].
  destruct (last_of_split_slash url) as (seg & Hi & Hl).
  split.
  - intros reason Hg. eexists. unroll. rewrite Hi. unroll. rewrite Hg.
    unroll. split; reflexivity.
  - intros r Hg. exists seg. split; [exact Hl|]. intros Ho. eexists.
    unroll. rewrite Hi. unroll. rewrite Hg. unroll.
    rewrite replace_space_underscore, Ho. unroll.
    split; [reflexivity|]. apply fs_lookup_head.
Qed.

Lemma download_ignores_status_witness :
  (forall reason,
     w_get world_archive_404 url_1_2_3_zip = NetFail reason ->
     exists st',
       download url_1_2_3_zip world_archive_404 (initial world_archive_404)
       = (Raise (Builtin RequestException reason) 122, st')
       /\ fs st' = fs (initial world_archive_404))
  /\ (forall r,
        w_get world_archive_404 url_1_2_3_zip = Responded r ->
        exists seg,
          last_segment slash url_1_2_3_zip seg
          /\ (w_open_wb world_archive_404
                (lit "govready-q-" ++ spaces_to_underscores seg) = None ->
              exists st',
                download url_1_2_3_zip world_archive_404
                  (initial world_archive_404)
                = (Ok (lit "govready-q-" ++ spaces_to_underscores seg), st')
                /\ fs_lookup (lit "govready-q-" ++ spaces_to_underscores seg)
                     (fs st') = Some (content r))).
Proof.
  apply (@download_ignores_status url_1_2_3_zip world_archive_404
           (initial world_archive_404)).
  reflexivity.
Defined.

(** C1 as stated fails: the server answers 404 to the request for the
    archive, and the download succeeds, with the 404 body as the content
    of the local file; the run goes on to print a row for it and ends
    with status 0. *)
Lemma download_404_is_written :
  (exists r, w_get world_archive_404 url_1_2_3_zip = Responded r
             /\ status_code r = 404%Z /\ content r = blit "Not Found")
  /\ fst (download url_1_2_3_zip world_archive_404
            (initial world_archive_404))
     = Ok (lit "govready-q-1.2.3.zip")
  /\ fs_lookup (lit "govready-q-1.2.3.zip")
       (fs (snd (download url_1_2_3_zip world_archive_404
                   (initial world_archive_404))))
     = Some (blit "Not Found")
  /\ status_of default_args world_archive_404 = 0%Z
  /\ existsb is_row (stdout (snd (run default_args world_archive_404)))
     = true.
Proof.
  split; [eexists; split; [vm_compute; reflexivity|split; reflexivity]|].
  split; [vm_compute; reflexivity|].
  split; [vm_compute; reflexivity|].
  split; vm_compute; reflexivity.
Qed.

(** The network fails while an archive is fetched: the exception of the
    HTTP library reaches the last handler from line 157, no file has been
    created, and the run ends with status 1. *)
Example archive_unreachable :
  fst (attempt default_args world_archive_unreachable)
  = Raise (Builtin RequestException (lit "Connection refused")) 157
  /\ fs (snd (run default_args world_archive_unreachable)) = []
  /\ status_of default_args world_archive_unreachable = 1%Z.
Proof.
  split; [vm_compute; reflexivity|].
  split; vm_compute; reflexivity.
Qed.

(** ** The metadata request *)




(** ** The checksum command *)

(** One of the commands of the trace is the one the hypotheses speak of:
    [pick_run HIn Hrun] finds which, and what the world answered it. *)
Ltac pick_run HIn Hrun :=
  cbn [app In] in HIn;
  repeat (destruct HIn as [HIn|HIn]; try discriminate HIn);
  try contradiction;
  match type of HIn with
  | ERun ?a ?t ?c = ERun ?argv ?timeout ?capture =>
      let E1 := fresh "E" in
      let E2 := fresh "E" in
      let E3 := fresh "E" in
      assert (E1 : argv = a) by congruence;
      assert (E2 : timeout = t) by congruence;
      assert (E3 : capture = c) by congruence;
      clear HIn; try discriminate E3;
      subst argv; subst timeout; try subst capture
  end;
  revert Hrun;
  match goal with
  | H : ?x = _ |- ?x = _ -> _ => rewrite H
  end;
  intros Hrun;
  try discriminate Hrun.



(** ** Timeouts *)

(** An [int] of magnitude up to 2^53 is a double, and ['{:.1f}'] prints
    its digits. *)
Lemma format_1f_exact (t : Z) :
  (Z.abs t <= 2 ^ 53)%Z -> format_1f t = Some (str_of_int t ++ lit ".0").
Proof.
  intros H. unfold format_1f.
  assert (E : float_of_int t = Some t); [|now rewrite E].
  destruct (Z.eq_dec (Z.abs t) (2 ^ 53)) as [Hb|Hb].
  - destruct t as [|q|q]; simpl in Hb; try discriminate Hb;
      injection Hb as ->; vm_compute; reflexivity.
  - assert (Hlt : (Z.abs t < 2 ^ 53)%Z) by lia.
    unfold float_of_int.
    assert (He : (Z.log2 (Z.abs t) + 1 - 53 <=? 0)%Z = true).
    { apply Z.leb_le.
      destruct (Z.eq_dec (Z.abs t) 0) as [->|Hz]; [simpl; lia|].
      assert (Z.log2 (Z.abs t) < 53)%Z; [|lia].
      apply Z.log2_lt_pow2; lia. }
    rewrite He.
    assert (Hs : (Z.abs t <? 2 ^ 1024)%Z = true).
    { apply Z.ltb_lt. eapply Z.lt_trans; [exact Hlt|].
      apply Z.pow_lt_mono_r; lia. }
    rewrite Hs. f_equal. lia.
Qed.

(** C4, as the script has it.  Whenever a command of the run has not
    ended within the timeout it was given (the configured one), the [try]
    block ended with the timeout exception; the script writes a message
    that names the command and the configured timeout (with one decimal;
    exact up to 2^53 seconds), then suggests to run again with the larger
    of the configured timeout plus 120 and 600; the run ends with
    status 1. *)
Theorem timeout_is_fatal
    (args : Args) (w : World) (argv : list str) (timeout : Z)
    (capture : bool) :
  w_sigint w = None ->
  In (ERun argv timeout capture) (trace (snd (run args w))) ->
  w_run w argv timeout = TimedOut ->
  (Z.abs (args_timeout args) <= 2 ^ 53)%Z ->
  timeout = args_timeout args
  /\ fst (attempt args w) = Raise (TimeoutExpired argv timeout) 171
  /\ status_of args w = 1%Z
  /\ stderr (snd (run args w))
     = [[Lit (nl ++ nl ++
              lit "Fatal error, exiting: external program or script ");
         Fmt [] (PList (map PStr argv));
         Lit (lit " took longer than ");
         Lit (str_of_int timeout ++ lit ".0");
         Lit (lit " seconds." ++ nl ++ nl)];
        [Lit (lit "Suggested fix: run again with '--timeout ");
         Lit (str_of_int (Z.max (timeout + 120) 600));
         Lit (lit "'." ++ nl ++ nl)]].
Proof.
  intros Hq. quiet_world w Hq.
  explore; intros HIn Hrun Hbound; pick_run HIn Hrun;
    match goal with
    | H : format_1f _ = _ |- _ =>
        rewrite (format_1f_exact _ Hbound) in H; try discriminate H;
        match type of H with
        | Some ?x = Some ?y => assert (y = x) by congruence; subst y
        end
    end;
    (split; [reflexivity|]);
    (split; [reflexivity|]);
    (split; reflexivity).
Qed.

Lemma timeout_is_fatal_witness :
  let argv := get_checksum default_args (lit "govready-q-1.2.3.zip") in
  120%Z = args_timeout default_args
  /\ fst (attempt default_args world_shasum_hangs)
     = Raise (TimeoutExpired argv 120) 171
  /\ status_of default_args world_shasum_hangs = 1%Z
  /\ stderr (snd (run default_args world_shasum_hangs))
     = [[Lit (nl ++ nl ++
              lit "Fatal error, exiting: external program or script ");
         Fmt [] (PList (map PStr argv));
         Lit (lit " took longer than ");
         Lit (str_of_int 120 ++ lit ".0");
         Lit (lit " seconds." ++ nl ++ nl)];
        [Lit (lit "Suggested fix: run again with '--timeout ");
         Lit (str_of_int (Z.max (120 + 120) 600));
         Lit (lit "'." ++ nl ++ nl)]].
Proof.
  cbv zeta.
  apply (@timeout_is_fatal default_args world_shasum_hangs
           (get_checksum default_args (lit "govready-q-1.2.3.zip"))
           120 true).
  - reflexivity.
  - vm_compute. do 5 right. left. reflexivity.
  - reflexivity.
  - vm_compute. discriminate.
Defined.

(** C4 as stated fails: with the default timeout of 120 seconds the
    script suggests 600, not twice the timeout plus 120 (360). *)
Lemma timeout_suggestion_is_not_doubled :
  args_timeout default_args = 120%Z
  /\ nth_error (stderr (snd (run default_args world_shasum_hangs))) 1
     = Some [Lit (lit "Suggested fix: run again with '--timeout ");
             Lit (lit "600");
             Lit (lit "'." ++ nl ++ nl)]
  /\ str_of_int (2 * args_timeout default_args + 120) = lit "360"
  /\ lit "600" <> lit "360".
Proof.
  split; [reflexivity|].
  split; [vm_compute; reflexivity|].
  split; [vm_compute; reflexivity|].
  vm_compute. discriminate.
Qed.

(** ** Exit status *)

(** Whatever exception the handlers of [main] catch, the process ends
    with status 1: every handler ends in [sys.exit(1)], and an exception
    raised inside a handler (undecodable error output, a timeout too large
    for a float) leaves [main] uncaught, which is status 1 as well. *)
Lemma handler_exits_1 (args : Args) (e : exn) (l : nat) (w : World)
    (st : State) :
  w_sigint w = None -> is_Exception e = true ->
  exit_status (fst (handler args e l w st)) = 1%Z.
Proof.
  intros Hq He. quiet_world w Hq. destruct st as [c f so se tr].
  destruct e; try discriminate He; explore; reflexivity.
Qed.

Lemma quiet_status (args : Args) (w : World) :
  w_sigint w = None ->
  (forall a, fst (attempt args w) = Ok a -> status_of args w = 0%Z)
  /\ (forall e l, fst (attempt args w) = Raise e l ->
      is_Exception e = true /\ status_of args w = 1%Z).
Proof.
  intros Hq. quiet_world w Hq.
  explore; (split; [intros a K|intros e' l' K]);
    first [discriminate K | reflexivity | idtac];
    injection K as <- _; split; reflexivity.
Qed.

Lemma interrupted_run (args : Args) (w : World) (n : nat) :
  w_sigint w = Some n ->
  (n < clock (snd (run args (quiet w))) ->
   exists l s, run args w = (Raise (SystemExit 0) l, s)
               /\ extends s (snd (run args (quiet w))))
  /\ (clock (snd (run args (quiet w))) <= n ->
      run args w = run args (quiet w)).
Proof.
  intros Hs. destruct w as [g o r f sg]. simpl in Hs. subst sg.
  set (w := {| w_get := g; w_open_wb := o; w_run := r; w_files := f;
               w_sigint := Some n |}).
  destruct (sigint_ok_main args w (initial w) n) as (_ & _ & H2 & H3).
  split.
  - intros H. destruct H2 as (l & s & E & _ & X).
    + split; [apply Nat.le_0_l|exact H].
    + exists l, s. split; [exact E|exact X].
  - intros H. apply H3. right. exact H.
Qed.

(** C9. Under an operator who does not interrupt, the process ends with
    status 0 when the [try] block completes and with status 1 when it
    raises, whichever handler takes the exception, the last one for
    unanticipated exceptions included.  When control-C arrives at any
    point the run passes, the process ends with status 0, having written
    no more than the uninterrupted run would have; when it arrives later
    it changes nothing.  No other status occurs. *)
Theorem exit_status_of_run (args : Args) (w : World) :
  (w_sigint w = None ->
   (forall a, fst (attempt args w) = Ok a -> status_of args w = 0%Z)
   /\ (forall e l, fst (attempt args w) = Raise e l ->
       status_of args w = 1%Z)
   /\ (forall e l st, is_Exception e = true ->
       exit_status (fst (handler args e l w st)) = 1%Z))
  /\ (forall n,
        w_sigint w = Some n ->
        (n < clock (snd (run args (quiet w))) ->
         status_of args w = 0%Z
         /\ extends (snd (run args w)) (snd (run args (quiet w))))
        /\ (clock (snd (run args (quiet w))) <= n ->
            run args w = run args (quiet w)))
  /\ (status_of args w = 0%Z \/ status_of args w = 1%Z).
Proof.
  assert (Q : forall v, w_sigint v = None ->
                        status_of args v = 0%Z \/ status_of args v = 1%Z).
  { intros v Hv. destruct (quiet_status args v Hv) as [Q0 Q1].
    destruct (fst (attempt args v)) as [a|e l] eqn:E.
    - left. now apply (Q0 a).
    - right. now apply (Q1 e l). }
  split; [|split].
  - intros Hq. destruct (quiet_status args w Hq) as [Q0 Q1].
    split; [exact Q0|]. split.
    + intros e l K. now apply (Q1 e l).
    + intros e l st He. now apply handler_exits_1.
  - intros n Hs. destruct (interrupted_run args w Hs) as [I1 I2].
    split; [|exact I2].
    intros H. destruct (I1 H) as (l & s & E & X).
    unfold status_of. rewrite E. split; [reflexivity|exact X].
  - destruct (w_sigint w) as [n|] eqn:Hs; [|now apply Q].
    destruct (interrupted_run args w Hs) as [I1 I2].
    destruct (Nat.lt_ge_cases n (clock (snd (run args (quiet w)))))
      as [Hlt|Hge].
    + destruct (I1 Hlt) as (l & s & E & _).
      left. unfold status_of. now rewrite E.
    + unfold status_of. rewrite (I2 Hge). now apply (Q (quiet w)).
Qed.

Lemma exit_status_of_run_witness :
  status_of default_args world_1_2_3 = 0%Z
  /\ status_of default_args world_shasum_fails = 1%Z
  /\ status_of default_args world_interrupted_mid_download = 0%Z.
Proof.
  split; [|split].
  - apply (proj1 (proj1 (exit_status_of_run default_args world_1_2_3)
                    eq_refl) tt).
    vm_compute. reflexivity.
  - apply (proj1 (proj2 (proj1
             (exit_status_of_run default_args world_shasum_fails) eq_refl))
             (new_ReturncodeNonZeroError
                {| cp_args :=
                     get_checksum default_args (lit "govready-q-1.2.3.zip");
                   returncode := 1; cp_stdout := Some [];
                   cp_stderr := Some (blit "shasum: bad option") |} None)
             173).
    vm_compute. reflexivity.
  - refine (proj1 (proj1 (proj1 (proj2
              (exit_status_of_run default_args
                 world_interrupted_mid_download)) 18 eq_refl) _)).
    vm_compute. lia.
Defined.

(** Control-C while the first archive is being fetched: status 0, the
    request is out, no file exists yet and nothing was written to the
    error stream. *)
Example interrupt_mid_download :
  status_of default_args world_interrupted_mid_download = 0%Z
  /\ requests (trace (snd (run default_args world_interrupted_mid_download)))
     = [RELEASE_INFO; url_1_2_3_zip]
  /\ fs (snd (run default_args world_interrupted_mid_download)) = []
  /\ stderr (snd (run default_args world_interrupted_mid_download)) = [].
Proof.
  split; [vm_compute; reflexivity|].
  split; [vm_compute; reflexivity|].
  split; vm_compute; reflexivity.
Qed.

(** ** Verbose runs *)






(** The same world, the same release: without [--verbose] the run prints
    its two rows, with it none. *)
Example verbose_against_quiet :
  List.length (filter is_row (stdout (snd (run default_args world_1_2_3)))) = 2
  /\ List.length (filter is_row (stdout (snd (run verbose_args world_1_2_3))))
     = 0.
Proof. split; vm_compute; reflexivity. Qed.

(** ** The runner and the probes *)




Ltac unroll_helpers :=
  cbv beta iota zeta delta
    [check_has_command try_except_only is_FileNotFoundError
     check_package_version subprocess_run_untimed iterate
     sys_executable host_run json_loads];
  unroll.



(** ** Outdated packages *)

Lemma scan_packages_miss
    (package_name : str) (items : list (str * pyval)) (n : pyval)
    (rest : list pyval) (w : World) (st : State) :
  w_sigint w = None ->
  dict_get (lit "name") items = Some n ->
  equals_str n package_name = false ->
  scan_packages package_name (PDict items :: rest) w st
  = scan_packages package_name rest w (set_clock (S (S (clock st))) st).
Proof.
  intros Hq Hn He. quiet_world w Hq. destruct st as [c f so se tr].
  cbn [scan_packages]. unroll. rewrite Hn. unroll. rewrite He. reflexivity.
Qed.

Lemma scan_packages_absent
    (package_name : str) (packages : list pyval) (w : World) :
  w_sigint w = None ->
  Forall (other_package package_name) packages ->
  forall st,
    fst (scan_packages package_name packages w st) = Ok (true, PNone, PNone).
Proof.
  intros Hq H. induction H as [|pkg rest (items & n & -> & Hn & He) _ IH];
    intros st.
  - quiet_world w Hq. destruct st as [c f so se tr]. reflexivity.
  - rewrite (@scan_packages_miss _ _ _ rest _ st Hq Hn He). apply IH.
Qed.

Lemma scan_packages_hit
    (package_name : str) (before after : list pyval)
    (items : list (str * pyval)) (version latest : pyval) (w : World) :
  w_sigint w = None ->
  Forall (other_package package_name) before ->
  dict_get (lit "name") items = Some (PStr package_name) ->
  dict_get (lit "version") items = Some version ->
  dict_get (lit "latest_version") items = Some latest ->
  forall st,
    fst (scan_packages package_name (before ++ PDict items :: after) w st)
    = Ok (false, version, latest).
Proof.
  intros Hq H Hn Hv Hl.
  induction H as [|pkg rest (items' & n & -> & Hn' & He) _ IH]; intros st.
  - quiet_world w Hq. destruct st as [c f so se tr].
    cbn [app scan_packages]. unroll. rewrite Hn. unroll.
    cbn [equals_str]. rewrite str_eqb_refl. unroll. rewrite Hv. unroll.
    rewrite Hl. reflexivity.
  - cbn [app]. rewrite (@scan_packages_miss _ _ _ (rest ++ PDict items :: after) _ st Hq Hn' He). apply IH.
Qed.

(** X3. Lines 106-116: when pip's listing is a list of packages none of which
    has the name asked for, the answer is "okay": [(True, None, None)].
    That is also the answer for a package that is not installed.  The
    exit code of pip is not looked at. *)
Theorem check_package_version_okay
    (h : Host) (package_name : str) (w : World) (st : State)
    (code : Z) (out err : bytes) (listing : str) (packages : list pyval) :
  w_sigint w = None ->
  host_run h (pip_list_outdated h) = UExited code out err ->
  utf8_decode out = Some listing ->
  json_loads h listing = Some (PList packages) ->
  Forall (other_package package_name) packages ->
  fst (check_package_version h package_name w st) = Ok (true, PNone, PNone).
Proof.
  intros Hq Hr Hd Hj Hp. pose proof (@scan_packages_absent _ _ w Hq Hp) as S.
  quiet_world w Hq. destruct h as [exe hrun loads]. destruct st as [c f so se tr].
  cbn [host_run json_loads] in Hr, Hj.
  unroll_helpers. rewrite Hr. unroll_helpers. rewrite Hd. unroll_helpers.
  rewrite Hj. unroll_helpers.
  match goal with
  | |- context [scan_packages package_name packages ?v ?s] =>
      specialize (S s); destruct (scan_packages package_name packages v s)
  end.
  exact S.
Qed.

Lemma check_package_version_okay_witness :
  fst (check_package_version host_one_outdated (lit "pip") world_1_2_3
         (initial world_1_2_3)) = Ok (true, PNone, PNone).
Proof.
  apply (@check_package_version_okay host_one_outdated (lit "pip")
           world_1_2_3 (initial world_1_2_3) 0 pip_listing []
           (map Byte.to_N pip_listing) [requests_entry]).
  - reflexivity.
  - reflexivity.
  - vm_compute. reflexivity.
  - vm_compute. reflexivity.
  - constructor; [|constructor].
    exists [(lit "name", PStr (lit "requests"));
            (lit "version", PStr (lit "2.25.0"));
            (lit "latest_version", PStr (lit "2.31.0"))],
           (PStr (lit "requests")).
    split; [reflexivity|]. split; reflexivity.
Defined.

(** X4. Lines 113-115: the answer for an outdated package is [False] with the
    two versions of the first entry that has its name, provided the
    entries before it are packages with other names. *)
Theorem check_package_version_outdated
    (h : Host) (package_name : str) (w : World) (st : State)
    (code : Z) (out err : bytes) (listing : str)
    (before after : list pyval) (items : list (str * pyval))
    (version latest : pyval) :
  w_sigint w = None ->
  host_run h (pip_list_outdated h) = UExited code out err ->
  utf8_decode out = Some listing ->
  json_loads h listing = Some (PList (before ++ PDict items :: after)) ->
  Forall (other_package package_name) before ->
  dict_get (lit "name") items = Some (PStr package_name) ->
  dict_get (lit "version") items = Some version ->
  dict_get (lit "latest_version") items = Some latest ->
  fst (check_package_version h package_name w st)
  = Ok (false, version, latest).
Proof.
  intros Hq Hr Hd Hj Hp Hn Hv Hl.
  pose proof (@scan_packages_hit _ _ after _ _ _ w Hq Hp Hn Hv Hl) as S.
  quiet_world w Hq. destruct h as [exe hrun loads]. destruct st as [c f so se tr].
  cbn [host_run json_loads] in Hr, Hj.
  unroll_helpers. rewrite Hr. unroll_helpers. rewrite Hd. unroll_helpers.
  rewrite Hj. unroll_helpers.
  match goal with
  | |- context [scan_packages package_name ?l ?v ?s] =>
      specialize (S s); destruct (scan_packages package_name l v s)
  end.
  exact S.
Qed.

Lemma check_package_version_outdated_witness :
  fst (check_package_version host_one_outdated (lit "requests") world_1_2_3
         (initial world_1_2_3))
  = Ok (false, PStr (lit "2.25.0"), PStr (lit "2.31.0")).
Proof.
  apply (@check_package_version_outdated host_one_outdated (lit "requests")
           world_1_2_3 (initial world_1_2_3) 0 pip_listing []
           (map Byte.to_N pip_listing) [] []
           [(lit "name", PStr (lit "requests"));
            (lit "version", PStr (lit "2.25.0"));
            (lit "latest_version", PStr (lit "2.31.0"))]).
  - reflexivity.
  - reflexivity.
  - vm_compute. reflexivity.
  - vm_compute. reflexivity.
  - constructor.
  - reflexivity.
  - reflexivity.
  - reflexivity.
Defined.

(** ** File names *)


Lemma spaces_to_underscores_clean (s : str) :
  ~ In space (spaces_to_underscores s)
  /\ (~ In slash s -> ~ In slash (spaces_to_underscores s)).
Proof.
  unfold spaces_to_underscores. split.
  - intros H. apply in_map_iff in H as (x & E & _).
    destruct (N.eqb_spec space x) as [_|Hne]; [discriminate E|].
    now apply Hne.
  - intros Hs H. apply in_map_iff in H as (x & E & Hx).
    destruct (N.eqb_spec space x) as [_|_]; [discriminate E|].
    subst x. now apply Hs.
Qed.

(** X5. Line 121: for every address, the local file name is [govready-q-]
    followed by something, and contains neither a slash nor a space: the
    file is created in the working directory, wherever the address
    points. *)
Theorem download_filename_safe (url : str) (w : World) (st : State) :
  exists rest,
    download_filename url w st = (Ok (lit "govready-q-" ++ rest), st)
    /\ ~ In slash (lit "govready-q-" ++ rest)
    /\ ~ In space (lit "govready-q-" ++ rest).
Proof.
  destruct (last_of_split_slash url) as (seg & Hi & Hn & _).
  exists (spaces_to_underscores seg).
  destruct (spaces_to_underscores_clean seg) as [Hsp Hsl].
  split; [|split].
  - unfold download_filename. unroll. rewrite Hi. unroll.
    now rewrite replace_space_underscore.
  - intros H. apply in_app_or in H as [H|H]; [|now apply Hsl].
    vm_compute in H. repeat (destruct H as [H|H]; [discriminate H|]).
    exact H.
  - intros H. apply in_app_or in H as [H|H]; [|now apply Hsp].
    vm_compute in H. repeat (destruct H as [H|H]; [discriminate H|]).
    exact H.
Qed.



Lemma last_segment_of_archive (release_name ext : str) :
  ~ In slash release_name -> ~ In slash ext ->
  last_segment slash (RELEASE_TAG_URL ++ release_name ++ ext)
    (release_name ++ ext).
Proof.
  intros Hr He. split.
  - intros H. apply in_app_or in H as [H|H]; [now apply Hr|now apply He].
  - right.
    exists (lit "https://github.com/GovReady/govready-q/archive/refs/tags").
    reflexivity.
Qed.

Lemma extensions_no_slash (ext : str) :
  In ext extensions -> ~ In slash ext /\ ~ In space ext.
Proof.
  intros [<-|[<-|[]]]; split; vm_compute; intuition discriminate.
Qed.

Lemma spaces_to_underscores_id (s : str) :
  ~ In space s -> spaces_to_underscores s = s.
Proof.
  induction s as [|x s IH]; intros H; [reflexivity|].
  change (spaces_to_underscores (x :: s))
    with ((if N.eqb space x then underscore else x)
          :: spaces_to_underscores s).
  destruct (N.eqb_spec space x) as [E|_].
  - exfalso. apply H. now left.
  - f_equal. apply IH. intros K. apply H. now right.
Qed.

(** X7. Lines 121, 155 and 182 together: for a release name without a slash
    (as every resolved name is), the file of an archive is [govready-q-],
    the name and the extension, spaces replaced; and when the name has no
    space either, that is the very file the printed row links to. *)
Theorem archive_filename
    (release_name ext checksum : str) (size : Z) (w : World) (st : State) :
  ~ In slash release_name -> In ext extensions ->
  download_filename (RELEASE_TAG_URL ++ release_name ++ ext) w st
  = (Ok (lit "govready-q-" ++ spaces_to_underscores (release_name ++ ext)),
     st)
  /\ (~ In space release_name ->
      spaces_to_underscores (release_name ++ ext) = release_name ++ ext
      /\ exists before after,
           html_block release_name ext checksum size
           = before
             ++ (lit "<a href=" ++ dq ++ lit "govready-q-" ++ release_name
                 ++ ext ++ dq)
             ++ after).
Proof.
  intros Hr Hx. destruct (extensions_no_slash Hx) as [Hxs Hxp].
  pose proof (@last_segment_of_archive release_name ext Hr Hxs) as Hl.
  destruct (last_of_split_slash (RELEASE_TAG_URL ++ release_name ++ ext))
    as (seg & Hi & Hl').
  assert (seg = release_name ++ ext) as ->
    by exact (last_segment_unique Hl' Hl).
  split.
  - unfold download_filename. unroll. rewrite Hi. unroll.
    now rewrite replace_space_underscore.
  - intros Hp. split.
    + apply spaces_to_underscores_id. intros H.
      apply in_app_or in H as [H|H]; [now apply Hp|now apply Hxp].
    + unfold html_block.
      change (lit "              <td><a href=")
        with (lit "              <td>" ++ lit "<a href=").
      eexists (nl ++ lit "            <tr>" ++ nl ++
               lit "              <td class=" ++ dq ++ lit "release" ++ dq
               ++ lit ">" ++ release_name ++ lit "</td>" ++ nl
               ++ lit "              <td>").
      eexists. rewrite <- !app_assoc. reflexivity.
Qed.

Lemma archive_filename_witness :
  download_filename (RELEASE_TAG_URL ++ lit "1.2.3" ++ lit ".zip")
    world_1_2_3 (initial world_1_2_3)
  = (Ok (lit "govready-q-" ++ spaces_to_underscores (lit "1.2.3" ++ lit ".zip")),
     initial world_1_2_3).
Proof.
  refine (proj1 (@archive_filename (lit "1.2.3") (lit ".zip") [] 0
                   world_1_2_3 (initial world_1_2_3) _ _)).
  - vm_compute. intuition discriminate.
  - left. reflexivity.
Defined.

(** ** A run in which everything works *)





Ltac along :=
  repeat (progress
    (unroll;
     rewrite ?replace_space_underscore, ?fs_lookup_head, ?Z.eqb_refl;
     cbn [negb];
     try match goal with
         | H : ?x = _ |- context [match ?x with _ => _ end] => rewrite H
         end)).



(** ** Metadata that cannot be used *)

(** X11. Lines 140-149: with status 200, whatever is wrong with the body ends
    the run with the error that [metadata_error] names, at the line it
    names, before any archive is requested or any file written; the
    status is 1. *)
Theorem metadata_unusable
    (args : Args) (w : World) (meta : Response) (cls : builtin)
    (about : str) (line : nat) :
  w_sigint w = None ->
  w_get w RELEASE_INFO = Responded meta ->
  status_code meta = 200%Z ->
  metadata_error meta = Some (cls, about, line) ->
  fst (attempt args w) = Raise (Builtin cls about) line
  /\ status_of args w = 1%Z
  /\ trace (snd (run args w)) = [EGet RELEASE_INFO]
  /\ fs (snd (run args w)) = w_files w.
Proof.
  intros Hq Hg Hs He.
  assert (Hs' : (status_code meta =? 200)%Z = true) by now apply Z.eqb_eq.
  quiet_world w Hq. unfold metadata_error in He.
  destruct (resp_json meta) as [v|] eqn:Hj;
    [destruct v as [| | | | |l|items];
     try (destruct (dict_get (lit "html_url") items) as [v'|] eqn:Hd;
          [destruct v'|])|];
    try discriminate He;
    match type of He with
    | Some (?c, ?a, ?n) = _ =>
        assert (cls = c /\ about = a /\ line = n) as (-> & -> & ->)
          by (split; [|split]; congruence)
    end;
    clear He; along; cbn [app];
    (split; [reflexivity|]); (split; [reflexivity|]); split; reflexivity.
Qed.

Lemma metadata_unusable_witness :
  let w := {| w_get := fun _ =>
                Responded {| status_code := 200; content := blit "{}";
                             resp_json := Some (PDict []) |};
              w_open_wb := fun _ => None;
              w_run := fun _ _ => TimedOut;
              w_files := []; w_sigint := None |} in
  fst (attempt default_args w) = Raise (Builtin KeyError (lit "html_url")) 146
  /\ status_of default_args w = 1%Z.
Proof.
  intros w.
  refine ((fun H => conj (proj1 H) (proj1 (proj2 H)))
            (@metadata_unusable default_args w
               {| status_code := 200; content := blit "{}";
                  resp_json := Some (PDict []) |}
               KeyError (lit "html_url") 146
               eq_refl eq_refl eq_refl eq_refl)).
Defined.

(** ** What the handler suggests *)

(** X13. Lines 208-216: the handler first names the command and its exit code;
    then, only if output of the command was captured, is not empty,
    decodes and contains the message of the missing developer tools, it
    adds the suggestion to install them; it ends with [sys.exit(1)].
    Captured output that is not UTF-8 ends the handler at line 214 with
    the decoding error, after the first message. *)
Theorem handler_xcrun_hint
    (args : Args) (p : CompletedProcess) (msg : str) (lineno : nat)
    (w : World) (st : State) :
  let first :=
    [Lit (nl ++ nl ++ lit "Fatal error, exiting: external program or script ");
     Fmt [] (PList (map PStr (cp_args p)));
     Lit (lit " returned error code ");
     Lit (str_of_int (returncode p));
     Lit (lit "." ++ nl ++ nl)] in
  let hint :=
    [Lit (lit "Suggested fix (see documentation): You need to do 'xcode-select --install'."
          ++ nl ++ nl)] in
  let r := handler args (ReturncodeNonZeroError p msg) lineno w st in
  w_sigint w = None ->
  match cp_stderr p with
  | None | Some [] =>
      fst r = Raise (SystemExit 1) 216
      /\ stderr (snd r) = stderr st ++ [first]
  | Some captured =>
      match utf8_decode captured with
      | None =>
          fst r = Raise (Builtin UnicodeDecodeError []) 214
          /\ stderr (snd r) = stderr st ++ [first]
      | Some e =>
          fst r = Raise (SystemExit 1) 216
          /\ stderr (snd r)
             = stderr st
               ++ first :: (if contains XCRUN_MISSING e then [hint] else [])
      end
  end
  /\ stdout (snd r) = stdout st.
Proof.
  intros first hint r Hq. subst first hint r.
  quiet_world w Hq. destruct st as [c f so se tr].
  destruct p as [a code o e]. cbn [cp_stderr cp_args returncode].
  destruct e as [[|b bs]|];
    [| destruct (utf8_decode (b :: bs)) as [s|] eqn:Hd;
       [destruct (contains XCRUN_MISSING s) eqn:Hc|] |];
    along; cbn [app]; rewrite <- ?app_assoc; (split; [split|]); reflexivity.
Qed.

Lemma handler_xcrun_hint_witness :
  let p := {| cp_args := [lit "shasum"]; returncode := 1;
              cp_stdout := Some [];
              cp_stderr := Some (blit "shasum: bad option") |} in
  fst (handler default_args (ReturncodeNonZeroError p []) 173 world_1_2_3
         (initial world_1_2_3))
  = Raise (SystemExit 1) 216.
Proof.
  intros p.
  exact (proj1 (proj1 (@handler_xcrun_hint default_args p [] 173 world_1_2_3
                         (initial world_1_2_3) eq_refl))).
Defined.

(** The developer tools are missing: the suggestion follows the first
    message. *)
Example xcrun_hint_is_written :
  let p := {| cp_args := [lit "shasum"]; returncode := 1;
              cp_stdout := Some [];
              cp_stderr := Some (blit "xcrun: error: invalid active developer path (/Library/Developer/CommandLineTools), missing xcrun at: /Library/Developer/CommandLineTools/usr/bin/xcrun") |} in
  List.length
    (stderr (snd (handler default_args (ReturncodeNonZeroError p [])
                    173 world_1_2_3 (initial world_1_2_3)))) = 2.
Proof. vm_compute. reflexivity. Qed.

(** ** What every run keeps to *)

Ltac which_run HIn :=
  cbn [app In] in HIn;
  repeat (destruct HIn as [HIn|HIn]; try discriminate HIn);
  try contradiction;
  match type of HIn with
  | ERun ?a ?t ?c = ERun ?argv ?timeout ?capture =>
      let E1 := fresh "E" in
      let E2 := fresh "E" in
      let E3 := fresh "E" in
      assert (E1 : argv = a) by congruence;
      assert (E2 : timeout = t) by congruence;
      assert (E3 : capture = c) by congruence;
      clear HIn; subst argv; subst timeout; subst capture
  end.

Lemma quiet_run_facts (args : Args) (w : World) :
  w_sigint w = None ->
  (count is_row (stdout (snd (run args w)))
   <= count is_run (trace (snd (run args w)))
   /\ count is_run (trace (snd (run args w)))
      <= count is_write (trace (snd (run args w)))
   /\ count is_write (trace (snd (run args w)))
      <= count is_open (trace (snd (run args w)))
   /\ count is_open (trace (snd (run args w))) + 1
      <= count is_get (trace (snd (run args w)))
   /\ count is_get (trace (snd (run args w))) <= 3
   /\ count is_checksum_line (stdout (snd (run args w)))
      = count is_row (stdout (snd (run args w)))
   /\ (count is_get (trace (snd (run args w))) = 3 ->
       1 <= count is_row (stdout (snd (run args w)))))
  /\ (forall argv timeout capture,
        In (ERun argv timeout capture) (trace (snd (run args w))) ->
        timeout = args_timeout args
        /\ capture = negb (truthy (verbose args))
        /\ exists file data,
             argv = get_checksum args file
             /\ In (EWrite file data) (trace (snd (run args w))))
  /\ (forall argv timeout capture reason,
        In (ERun argv timeout capture) (trace (snd (run args w))) ->
        w_run w argv timeout = NotFound reason ->
        fst (attempt args w) = Raise (Builtin FileNotFoundError reason) 171
        /\ status_of args w = 1%Z
        /\ stderr (snd (run args w))
           = [[Lit (nl ++ nl ++
                    lit "Fatal error, exiting: unrecognized error on line ");
               Lit (lit "171");
               Lit (lit ", " ++ dq);
               StrExn (Builtin FileNotFoundError reason);
               Lit (dq ++ lit "." ++ nl ++ nl)]]
        /\ exists file data,
             argv = get_checksum args file
             /\ fs_lookup file (fs (snd (run args w))) = Some data).
Proof.
  intros Hq. quiet_world w Hq.
  explore;
  ((split; [|split]);
  [ vm_compute; lia
  | intros argv' timeout' capture' HIn; which_run HIn;
    (split; [reflexivity|]);
    (split; [reflexivity|]);
    eexists; eexists; (split; [reflexivity|]);
    cbn [app In]; repeat (first [left; reflexivity | right])
  | intros argv' timeout' capture' reason' HIn Hrun; pick_run HIn Hrun;
    match type of Hrun with
    | NotFound ?r = NotFound _ =>
        assert (reason' = r) by congruence; subst reason'
    end;
    (split; [reflexivity|]);
    (split; [reflexivity|]);
    (split; [reflexivity|]);
    eexists; eexists; (split; [reflexivity|]); apply fs_lookup_head ]).
Qed.

(** X9. Lines 153-191, in every run without interruption: a row is printed
    only for an archive whose checksum command was run, a command is run
    only on a file that was written, a file is written only after it was
    opened and opened only after its archive was requested; there are at
    most the two archives; every row comes with its checksum line; and
    the second archive is requested only after the row of the first. *)
Theorem rows_follow_the_pipeline (args : Args) (w : World) :
  w_sigint w = None ->
  count is_row (stdout (snd (run args w)))
  <= count is_run (trace (snd (run args w)))
  /\ count is_run (trace (snd (run args w)))
     <= count is_write (trace (snd (run args w)))
  /\ count is_write (trace (snd (run args w)))
     <= count is_open (trace (snd (run args w)))
  /\ count is_open (trace (snd (run args w))) + 1
     <= count is_get (trace (snd (run args w)))
  /\ count is_get (trace (snd (run args w))) <= 3
  /\ count is_checksum_line (stdout (snd (run args w)))
     = count is_row (stdout (snd (run args w)))
  /\ (count is_get (trace (snd (run args w))) = 3 ->
      1 <= count is_row (stdout (snd (run args w)))).
Proof. intros Hq. exact (proj1 (quiet_run_facts args w Hq)). Qed.

Lemma rows_follow_the_pipeline_witness :
  count is_row (stdout (snd (run default_args world_shasum_fails)))
  <= count is_run (trace (snd (run default_args world_shasum_fails))).
Proof.
  exact (proj1 (@rows_follow_the_pipeline default_args world_shasum_fails
                  eq_refl)).
Defined.

(** X10. Lines 166-171: every command the script runs is the checksum command
    ([shasum -a 256], [--user] if asked for) on a file this run has
    written, with the configured timeout, its output captured unless the
    run is verbose. *)
Theorem commands_are_checksums
    (args : Args) (w : World) (argv : list str) (timeout : Z)
    (capture : bool) :
  w_sigint w = None ->
  In (ERun argv timeout capture) (trace (snd (run args w))) ->
  timeout = args_timeout args
  /\ capture = negb (truthy (verbose args))
  /\ exists file data,
       argv = get_checksum args file
       /\ In (EWrite file data) (trace (snd (run args w))).
Proof.
  intros Hq. exact (proj1 (proj2 (quiet_run_facts args w Hq)) _ _ _).
Qed.

Lemma commands_are_checksums_witness :
  120%Z = args_timeout default_args
  /\ true = negb (truthy (verbose default_args))
  /\ exists file data,
       get_checksum default_args (lit "govready-q-1.2.3.zip")
       = get_checksum default_args file
       /\ In (EWrite file data) (trace (snd (run default_args world_1_2_3))).
Proof.
  apply (@commands_are_checksums default_args world_1_2_3
           (get_checksum default_args (lit "govready-q-1.2.3.zip"))
           120 true).
  - reflexivity.
  - vm_compute. do 5 right. left. reflexivity.
Defined.

(** X12. Lines 171 and 232-234: when the checksum program is not on the
    machine, the error of the attempt to start it reaches the last
    handler from line 171 and is reported as an unrecognized error; the
    status is 1, and the archive stays where it was downloaded. *)
Theorem missing_program_is_unrecognized
    (args : Args) (w : World) (argv : list str) (timeout : Z)
    (capture : bool) (reason : str) :
  w_sigint w = None ->
  In (ERun argv timeout capture) (trace (snd (run args w))) ->
  w_run w argv timeout = NotFound reason ->
  fst (attempt args w) = Raise (Builtin FileNotFoundError reason) 171
  /\ status_of args w = 1%Z
  /\ stderr (snd (run args w))
     = [[Lit (nl ++ nl ++
              lit "Fatal error, exiting: unrecognized error on line ");
         Lit (lit "171");
         Lit (lit ", " ++ dq);
         StrExn (Builtin FileNotFoundError reason);
         Lit (dq ++ lit "." ++ nl ++ nl)]]
  /\ exists file data,
       argv = get_checksum args file
       /\ fs_lookup file (fs (snd (run args w))) = Some data.
Proof.
  intros Hq. exact (proj2 (proj2 (quiet_run_facts args w Hq)) _ _ _ _).
Qed.

Lemma missing_program_is_unrecognized_witness :
  fst (attempt default_args world_shasum_missing)
  = Raise (Builtin FileNotFoundError (lit "No such file or directory: 'shasum'"))
      171
  /\ status_of default_args world_shasum_missing = 1%Z.
Proof.
  refine ((fun H => conj (proj1 H) (proj1 (proj2 H)))
            (@missing_program_is_unrecognized default_args
               world_shasum_missing
               (get_checksum default_args (lit "govready-q-1.2.3.zip"))
               120 true (lit "No such file or directory: 'shasum'")
               eq_refl _ eq_refl)).
  vm_compute. do 5 right. left. reflexivity.
Defined.
